(** * World clocks: the time-zone helpers

    A shallow embedding of [helpers/timezones.ts] and of the platform
    functions it calls: [Intl.DateTimeFormat], [Date.UTC], [Math.round],
    [Number], [String.prototype.split] and [Array.prototype.sort], each
    after its definition in ECMA-262 and ECMA-402.

    Layout:
    - [JS]        numbers with NaN, completions (normal result or throw),
                  decimal rendering and parsing of digit strings;
    - [Calendar]  the proleptic Gregorian calendar and the time-value
                  functions of ECMAScript ([Day], [HourFromTime], [MakeDay],
                  [TimeClip], [Date_UTC]);
    - [Platform]  what the host supplies: the zone rules database, the device
                  zone, the optional enumeration facility, the bundled tzdb
                  tables and the collation;
    - [Intl]      the date-time formatter;
    - [Timezones] the functions of the source file, in source order;
    - [Sample]    a small concrete platform on which the functions are run;
    - [ClocksScreen] the logic of the screen that uses them: the saved list
                  with adding and removing, the search filter, one row;
    - lemmas on digits, the calendar, the formatters, sorting and the
      metadata map, and then the properties of the specification.

    Strings are byte strings in UTF-8. The characters the module inspects
    (slash, underscore, hyphen, digits) are ASCII, and no multi-byte
    sequence contains an ASCII byte, so splitting and replacing act as on
    the UTF-16 strings of the source. *)

From Stdlib Require Import ZArith Lia Bool List String Ascii Sorted Permutation.
From stdpp Require Import base option list gmap strings.

Local Open Scope Z_scope.

(** [lia] is to see through division and remainder by constants. *)
Ltac Zify.zify_post_hook ::= Z.div_mod_to_equations.

(* ===================================================================== *)
(** * JavaScript values used by the module *)
(* ===================================================================== *)

Module JS.

(** A JavaScript number that is either an integer or [NaN]. Time values are
    bounded by 8.64e15 < 2^53, so sums and differences of the integers the
    module handles are exact on doubles as long as they stay below 2^53;
    that is every instant from the year 1 on (only for earlier instants can
    [utcAsIf - date] exceed 2^53 and lose its last bit). The one division,
    [x / 60000] under [Math.round], is kept together with the rounding in
    [Math_round_div]: a quotient that is not halfway between two integers is
    at least 1/60000 away from halfway, more than the rounding error of the
    division for |x| < 2^52. *)
Inductive number : Type :=
  | NaN
  | Num (z : Z).

Definition lift2 (f : Z -> Z -> Z) (a b : number) : number :=
  match a, b with
  | Num x, Num y => Num (f x y)
  | _, _ => NaN
  end.

(** [a - b]. The difference is taken exactly; on doubles it is exact while
    its magnitude stays below 2^53 (see above). *)
Definition nsub : number -> number -> number := lift2 Z.sub.

(** [a >= k], [a > k] and [a === k]: every comparison with NaN is false. *)
Definition nge (a : number) (k : Z) : bool :=
  match a with Num x => k <=? x | NaN => false end.
Definition ngt (a : number) (k : Z) : bool :=
  match a with Num x => k <? x | NaN => false end.
Definition neq (a : number) (k : Z) : bool :=
  match a with Num x => x =? k | NaN => false end.

(** Truthiness of a number: [0] and [NaN] are falsy. *)
Definition truthy (a : number) : bool :=
  match a with Num x => negb (x =? 0) | NaN => false end.

Definition Math_abs (a : number) : number :=
  match a with Num x => Num (Z.abs x) | NaN => NaN end.

(** [Math.floor(a / d)] for a positive integer [d]. *)
Definition Math_floor_div (a : number) (d : Z) : number :=
  match a with Num x => Num (x / d) | NaN => NaN end.

(** [a % d]: the remainder takes the sign of the dividend. *)
Definition nrem (a : number) (d : Z) : number :=
  match a with Num x => Num (Z.rem x d) | NaN => NaN end.

(** [Math.round(a / d)] for a positive integer [d]: the nearest integer, a
    tie going towards plus infinity, that is [floor (a/d + 1/2)]. *)
Definition Math_round_div (a : number) (d : Z) : number :=
  match a with Num x => Num ((2 * x + d) / (2 * d)) | NaN => NaN end.

(** Errors. The only one the module meets is the [RangeError] of the
    [Intl.DateTimeFormat] constructor for a zone it does not know (the
    specification calls it UnknownZoneError). *)
Inductive exn : Type :=
  | RangeError (message : string).

(** The outcome of evaluating an expression: a value, or a thrown error. *)
Inductive completion (A : Type) : Type :=
  | Normal (a : A)
  | Throw (e : exn).
Arguments Normal {A} a.
Arguments Throw {A} e.

#[global] Instance completion_ret : MRet completion := @Normal.
#[global] Instance completion_bind : MBind completion :=
  fun A B f c => match c with Normal a => f a | Throw e => Throw e end.
#[global] Instance completion_fmap : FMap completion :=
  fun A B f c => match c with Normal a => Normal (f a) | Throw e => Throw e end.

(** [try { c } catch { h }] *)
Definition try_catch {A} (c : completion A) (h : completion A) : completion A :=
  match c with Normal a => Normal a | Throw _ => h end.

(** ** Digits *)

Definition digit_char (d : Z) : ascii := ascii_of_N (48 + Z.to_N d).

Definition digit_value (c : ascii) : option Z :=
  let n := Z.of_N (N_of_ascii c) in
  if (48 <=? n) && (n <=? 57) then Some (n - 48) else None.

(** Decimal numeral of a non-negative integer, most significant digit first,
    no leading zero. The fuel is the binary length, which bounds the decimal
    length. *)
Fixpoint decimal_go (fuel : nat) (n : Z) (acc : string) : string :=
  let acc' := String (digit_char (n mod 10)) acc in
  match fuel with
  | O => acc'
  | S fuel' => if n <? 10 then acc' else decimal_go fuel' (n / 10) acc'
  end.

Definition decimal (n : Z) : string := decimal_go (Z.to_nat (Z.log2 n)) n "".

(** A field printed with the ['2-digit'] style: two digits, zero padded. *)
Definition pad2 (n : Z) : string :=
  String (digit_char ((n / 10) mod 10)) (String (digit_char (n mod 10)) "").

(** Template-literal conversion of a number: [`${h}`]. *)
Definition toString (a : number) : string :=
  match a with
  | NaN => "NaN"
  | Num x => if x <? 0 then "-" +:+ decimal (- x) else decimal x
  end.

Fixpoint parse_digits (acc : Z) (s : string) : option Z :=
  match s with
  | EmptyString => Some acc
  | String c s' =>
      match digit_value c with
      | Some d => parse_digits (10 * acc + d) s'
      | None => None
      end
  end.

(** [Number(s)] on the strings the module builds: a run of decimal digits is
    its value (the empty string is 0), anything else met here ("undefined",
    a key that still holds a letter) is [NaN]. Signs, fractions, exponents
    and surrounding blanks of the full numeric-literal grammar never reach
    it. *)
Definition Number (s : string) : number :=
  match parse_digits 0 s with Some z => Num z | None => NaN end.

(** [Number(v)] where [v] may be [undefined]. *)
Definition Number_opt (v : option string) : number :=
  match v with Some s => Number s | None => NaN end.

(** [`${v}`] where [v] may be [undefined]. *)
Definition template_opt (v : option string) : string :=
  match v with Some s => s | None => "undefined" end.

(** [s.split(sep)] for a one-character separator: never the empty array. *)
Fixpoint split (sep : ascii) (s : string) : list string :=
  match s with
  | EmptyString => [EmptyString]
  | String c s' =>
      if Ascii.eqb c sep then EmptyString :: split sep s'
      else match split sep s' with
           | h :: t => String c h :: t
           | [] => [String c EmptyString]
           end
  end.

(** [s.replace(/c/g, r)] for a single character [c] and a replacement [r]
    that is a string of length at most one. *)
Fixpoint replace_all (c : ascii) (r : string) (s : string) : string :=
  match s with
  | EmptyString => EmptyString
  | String x s' =>
      if Ascii.eqb x c then r +:+ replace_all c r s'
      else String x (replace_all c r s')
  end.

(** [arr.sort(cmp)]: a stable sort. With a consistent comparator every
    stable sort returns the same array; insertion from the right is the
    simplest one. [cmp a b > 0] moves [b] in front of [a]. *)
Fixpoint sort_insert {A} (cmp : A -> A -> Z) (x : A) (l : list A) : list A :=
  match l with
  | [] => [x]
  | y :: l' => if 0 <? cmp x y then y :: sort_insert cmp x l' else x :: l
  end.

Definition sort {A} (cmp : A -> A -> Z) (l : list A) : list A :=
  foldr (sort_insert cmp) [] l.

End JS.
Export JS.

(* ===================================================================== *)
(** * Calendar and time values (ECMAScript, Date objects) *)
(* ===================================================================== *)

Module Calendar.

Definition msPerSecond : Z := 1000.
Definition msPerMinute : Z := 60000.
Definition msPerHour : Z := 3600000.
Definition msPerDay : Z := 86400000.

(** The largest magnitude of a time value: 100,000,000 days. *)
Definition maxTime : Z := 8640000000000000.

(** The proleptic Gregorian date of a day number (days since 1970-01-01), by
    400-year eras counted from 0000-03-01. *)
Definition civil_from_days (z : Z) : Z * Z * Z :=
  let z' := z + 719468 in
  let era := z' / 146097 in
  let doe := z' mod 146097 in
  let yoe := (doe - doe / 1460 + doe / 36524 - doe / 146096) / 365 in
  let doy := doe - (365 * yoe + yoe / 4 - yoe / 100) in
  let mp := (5 * doy + 2) / 153 in
  let d := doy - (153 * mp + 2) / 5 + 1 in
  let m := if mp <? 10 then mp + 3 else mp - 9 in
  let y := yoe + era * 400 in
  (if m <=? 2 then y + 1 else y, m, d).

(** The day number of a proleptic Gregorian date; [m] is 1..12, [d] may be
    any integer (days are counted on from the first of the month). *)
Definition days_from_civil (y m d : Z) : Z :=
  let y' := if m <=? 2 then y - 1 else y in
  let era := y' / 400 in
  let yoe := y' mod 400 in
  let doy := (153 * (if m >? 2 then m - 3 else m + 9) + 2) / 5 + d - 1 in
  let doe := yoe * 365 + yoe / 4 - yoe / 100 + doy in
  era * 146097 + doe - 719468.

Definition Day (t : Z) : Z := t / msPerDay.

Definition YearFromTime (t : Z) : Z := (civil_from_days (Day t)).1.1.
(** Month as the formatter shows it, 1..12. *)
Definition MonthFromTime (t : Z) : Z := (civil_from_days (Day t)).1.2.
Definition DateFromTime (t : Z) : Z := (civil_from_days (Day t)).2.
Definition HourFromTime (t : Z) : Z := (t / msPerHour) mod 24.
Definition MinFromTime (t : Z) : Z := (t / msPerMinute) mod 60.
Definition SecFromTime (t : Z) : Z := (t / msPerSecond) mod 60.

(** [MakeDay(year, month, date)], [month] counted from 0: the month is
    normalised into the year, and the result is [NaN] when the first of that
    month is not a time value. *)
Definition MakeDay (year month date : Z) : number :=
  let ym := year + month / 12 in
  let mn := month mod 12 in
  let t := days_from_civil ym (mn + 1) 1 * msPerDay in
  if (- maxTime <=? t) && (t <=? maxTime) then Num (Day t + date - 1) else NaN.

Definition MakeTime (hour min sec ms : Z) : Z :=
  hour * msPerHour + min * msPerMinute + sec * msPerSecond + ms.

Definition MakeDate (day : number) (time : Z) : number :=
  match day with Num d => Num (d * msPerDay + time) | NaN => NaN end.

Definition TimeClip (time : number) : number :=
  match time with
  | Num t => if Z.abs t <=? maxTime then Num t else NaN
  | NaN => NaN
  end.

(** [MakeFullYear(year)]: a year from 0 to 99 stands for 1900 + year. *)
Definition MakeFullYear (year : Z) : Z :=
  if (0 <=? year) && (year <=? 99) then 1900 + year else year.

(** [Date.UTC(year, month, date, hours, minutes, seconds)]. *)
Definition Date_UTC (year month date hours minutes seconds : number) : number :=
  match year, month, date, hours, minutes, seconds with
  | Num y, Num m, Num dt, Num h, Num mi, Num s =>
      let yr := MakeFullYear y in
      TimeClip (MakeDate (MakeDay yr m dt) (MakeTime h mi s 0))
  | _, _, _, _, _, _ => NaN
  end.

(** The instant whose UTC reading is the given fields, with no special case
    for small years. *)
Definition utc_of_fields (y m d hh mm ss : Z) : Z :=
  days_from_civil y m d * msPerDay + MakeTime hh mm ss 0.

End Calendar.
Export Calendar.

(* ===================================================================== *)
(** * The platform *)
(* ===================================================================== *)

(** A row of the bundled tzdb metadata ([getTimeZones()] of @vvo/tzdb); only
    the two fields the module reads. *)
Record TimeZone : Type := { name : string; countryName : string }.

(** [utils/types.ts]; [country] is the optional field. *)
Record TimeZoneItem : Type :=
  { id : string; city : string; country : option string }.

(** What the host environment and the bundled tables supply.
    - [zoneRules z] is [None] for an identifier the rules database does not
      know, and otherwise the offset from UTC, in milliseconds, that the
      zone observes at a given instant;
    - [resolvedTimeZone] is
      [Intl.DateTimeFormat().resolvedOptions().timeZone];
    - [Intl_supportedValuesOf] is [None] where the runtime has no such
      function; where it has one, calling it may return or throw;
    - [timeZonesNames] and [getTimeZones] are the tables of tzdb;
    - [localeCompare a b] is [a.localeCompare(b)]. *)
Class Platform : Type := {
  zoneRules : string -> option (Z -> Z);
  resolvedTimeZone : string;
  Intl_supportedValuesOf : option (string -> completion (list string));
  timeZonesNames : list string;
  getTimeZones : list TimeZone;
  localeCompare : string -> string -> Z;
}.

(** An instant is the time value of a valid [Date]: milliseconds since the
    epoch. *)
Definition valid_instant (t : Z) : Prop := - maxTime <= t <= maxTime.

(* ===================================================================== *)
(** * [Intl.DateTimeFormat] *)
(* ===================================================================== *)

Module Intl.

Inductive Locale : Type := en_US | en_CA | en_GB.

Inductive Field : Type := fYear | fMonth | fDay | fHour | fMinute | fSecond.

Inductive Style : Type := numeric | two_digit.

(** The options object. Every formatter of the module also passes
    [hour12: false], which selects the hour cycle h23: hours are shown on
    the 24-hour clock, 00 to 23. *)
Record Options : Type := {
  timeZone : string;
  year : option Style;
  month : option Style;
  day : option Style;
  hour : option Style;
  minute : option Style;
  second : option Style;
}.

Record Part : Type := { type : string; value : string }.

Inductive PatternItem : Type :=
  | PField (f : Field) (s : Style)
  | PLiteral (text : string).

Definition field_name (f : Field) : string :=
  match f with
  | fYear => "year" | fMonth => "month" | fDay => "day"
  | fHour => "hour" | fMinute => "minute" | fSecond => "second"
  end.

Definition requested (o : Options) (f : Field) : option PatternItem :=
  PField f <$>
    match f with
    | fYear => year o | fMonth => month o | fDay => day o
    | fHour => hour o | fMinute => minute o | fSecond => second o
    end.

Fixpoint intersperse {A} (sep : A) (l : list A) : list A :=
  match l with
  | [] => []
  | [x] => [x]
  | x :: l' => x :: sep :: intersperse sep l'
  end.

Definition date_order (l : Locale) : list Field :=
  match l with
  | en_US => [fMonth; fDay; fYear]
  | en_CA => [fYear; fMonth; fDay]
  | en_GB => [fDay; fMonth; fYear]
  end.

Definition date_separator (l : Locale) : string :=
  match l with en_CA => "-" | _ => "/" end.

(** The pattern a locale gives to the requested fields: the date fields in
    the locale's order, then the time fields, joined by a comma and a
    blank. *)
Definition resolvePattern (l : Locale) (o : Options) : list PatternItem :=
  let date := intersperse (PLiteral (date_separator l))
                          (omap (requested o) (date_order l)) in
  let time := intersperse (PLiteral ":")
                          (omap (requested o) [fHour; fMinute; fSecond]) in
  match date, time with
  | [], _ => time
  | _, [] => date
  | _, _ => date ++ PLiteral ", " :: time
  end.

(** The year as the formatter shows it without an era: a year [v <= 0] is
    shown as [1 - v] (1 BC, the year 0, shows as 1). *)
Definition displayYear (y : Z) : Z := if y <=? 0 then 1 - y else y.

(** The number shown for a field at local time value [tl]. *)
Definition field_value (f : Field) (tl : Z) : Z :=
  match f with
  | fYear => displayYear (YearFromTime tl)
  | fMonth => MonthFromTime tl
  | fDay => DateFromTime tl
  | fHour => HourFromTime tl
  | fMinute => MinFromTime tl
  | fSecond => SecFromTime tl
  end.

Definition render_number (s : Style) (v : Z) : string :=
  match s with numeric => decimal v | two_digit => pad2 v end.

Definition render_item (tl : Z) (it : PatternItem) : Part :=
  match it with
  | PField f s => {| type := field_name f; value := render_number s (field_value f tl) |}
  | PLiteral text => {| type := "literal"; value := text |}
  end.

(** A constructed formatter: the rules of its zone and its pattern. *)
Record DateTimeFormat : Type := { rules : Z -> Z; pattern : list PatternItem }.

Section WithPlatform.
Context `{Platform}.

(** [new Intl.DateTimeFormat(locale, options)]: throws for an unknown zone. *)
Definition new_DateTimeFormat (l : Locale) (o : Options) : completion DateTimeFormat :=
  match zoneRules (timeZone o) with
  | Some r => Normal {| rules := r; pattern := resolvePattern l o |}
  | None => Throw (RangeError ("Invalid time zone specified: " +:+ timeZone o))
  end.

End WithPlatform.

(** The local time value of the zone at [date]. *)
Definition localTime (fmt : DateTimeFormat) (date : Z) : Z := date + rules fmt date.

Definition formatToParts (fmt : DateTimeFormat) (date : Z) : list Part :=
  map (render_item (localTime fmt date)) (pattern fmt).

Definition format (fmt : DateTimeFormat) (date : Z) : string :=
  foldr (fun p s => value p +:+ s) "" (formatToParts fmt date).

End Intl.
Export Intl.

(* ===================================================================== *)
(** * helpers/timezones.ts *)
(* ===================================================================== *)

Inductive DayLabel : Type := Today | Tomorrow | Yesterday.

(** The minus sign of [diffLabel], U+2212, three bytes in UTF-8. *)
Definition minus_glyph : string := "−".

Section Timezones.
Context `{Platform}.

(** Convert IANA id to city name. *)
Definition cityFromZoneId (id : string) : string :=
  let last := default id (last (split "/" id)) in
  replace_all "_" " " last.

(** Current device zone id. *)
Definition deviceZone (_ : unit) : string := resolvedTimeZone.

(** Build "YYYY-MM-DD" for a given zone/date. *)
Definition dayKey (date : Z) (timeZone : string) : completion string :=
  fmt ← new_DateTimeFormat en_CA
          {| timeZone := timeZone;
             year := Some numeric; month := Some two_digit; day := Some two_digit;
             hour := None; minute := None; second := None |};
  let parts := formatToParts fmt date in
  let get (t : string) : option string :=
    value <$> find (fun p => String.eqb (type p) t) parts in
  Normal (template_opt (get "year") +:+ "-" +:+ template_opt (get "month")
          +:+ "-" +:+ template_opt (get "day")).

(** Exact UTC offset in minutes for a zone at a given Date (DST-aware). *)
Definition offsetMinutes (timeZone : string) (date : Z) : completion number :=
  fmt ← new_DateTimeFormat en_US
          {| timeZone := timeZone;
             year := Some numeric; month := Some two_digit; day := Some two_digit;
             hour := Some two_digit; minute := Some two_digit;
             second := Some two_digit |};
  let parts := formatToParts fmt date in
  let getNum (t : string) : number :=
    Number_opt (value <$> find (fun p => String.eqb (type p) t) parts) in
  let y := getNum "year" in
  let m := getNum "month" in
  let d := getNum "day" in
  let hh := getNum "hour" in
  let mm := getNum "minute" in
  let ss := getNum "second" in
  (* UTC timestamp as if the local time were in UTC *)
  let utcAsIf := Date_UTC y (nsub m (Num 1)) d hh mm ss in
  (* difference in minutes between that and actual UTC time *)
  Normal (Math_round_div (nsub utcAsIf (Num date)) 60000).

(** Human label like "+3h", "−2h 30m" relative to device zone. *)
Definition diffLabel (targetZone : string) (date : Z) : completion string :=
  a ← offsetMinutes targetZone date;
  b ← offsetMinutes (deviceZone tt) date;
  let diff := nsub a b in
  let sign := if nge diff 0 then "+" else minus_glyph in
  let abs := Math_abs diff in
  let h := Math_floor_div abs 60 in
  let m := nrem abs 60 in
  Normal (if truthy m
          then sign +:+ toString h +:+ "h " +:+ toString m +:+ "m"
          else sign +:+ toString h +:+ "h").

(** Today/Tomorrow/Yesterday relative to device. *)
Definition dayRelative (targetZone : string) (date : Z) : completion DayLabel :=
  device ← dayKey date (deviceZone tt);
  target ← dayKey date targetZone;
  if String.eqb target device then Normal Today
  else
    let toNum (k : string) : number := Number (replace_all "-" "" k) in
    let delta := nsub (toNum target) (toNum device) in
    if neq delta 1 then Normal Tomorrow
    else if neq delta (-1) then Normal Yesterday
    else Normal (if ngt delta 0 then Tomorrow else Yesterday).

(** Format "HH:mm". *)
Definition timeHHmm (targetZone : string) (date : Z) : completion string :=
  fmt ← new_DateTimeFormat en_GB
          {| timeZone := targetZone;
             year := None; month := None; day := None;
             hour := Some two_digit; minute := Some two_digit; second := None |};
  Normal (format fmt date).

(** Get a list of zones; prefer built-in list, fall back to tzdb; enrich
    with country. *)
Definition getAllZones (_ : unit) : completion (list TimeZoneItem) :=
  (* try the runtime list first; [ids] stays undefined when the function is
     missing or throws *)
  ids ← match Intl_supportedValuesOf with
        | Some supportedValuesOf =>
            try_catch (Some <$> supportedValuesOf "timeZone") (Normal None)
        | None => Normal None
        end;
  (* fallback to tzdb's full list of IANA names *)
  let ids : list string := default timeZonesNames ids in
  (* enrich with tzdb metadata *)
  let tzMeta := getTimeZones in
  let enrich : gmap string TimeZone :=
    foldl (fun m z => <[name z := z]> m) ∅ tzMeta in
  let items :=
    map (fun id =>
           let meta := enrich !! id in
           {| id := id; city := cityFromZoneId id; country := countryName <$> meta |})
        ids in
  (* sort in ascending order by city name *)
  Normal (sort (fun a b => localeCompare (city a) (city b)) items).

End Timezones.

(* ===================================================================== *)
(** * A concrete platform *)
(* ===================================================================== *)

(** A small platform on which the functions above are run: an excerpt of
    the IANA rules, a five-row tzdb and the collation by code units. *)
Module Sample.

Definition at_utc (y m d hh mm ss : Z) : Z := utc_of_fields y m d hh mm ss.

Definition hours (h : Z) : Z := h * msPerHour.

(** Offset [summer] between the two switching instants, [winter] outside. *)
Definition dst (start stop winter summer : Z) (t : Z) : Z :=
  if (start <=? t) && (t <? stop) then summer else winter.

(** The rules, after the IANA database. Tokyo and Kolkata are the standard
    times in force since the 1950s, which have no end; London, New York and
    Los Angeles carry the summer-time switches of 2024 only; Juneau is local
    mean time, 15:02:19 ahead of Greenwich, until the transfer of Alaska on
    1867-10-19 (00:31:13 UTC), and its later history is reduced to the
    present Alaska standard time. *)
Definition rulesOf (z : string) : option (Z -> Z) :=
  if String.eqb z "UTC" then Some (fun _ => 0)
  else if String.eqb z "Asia/Tokyo" then Some (fun _ => hours 9)
  else if String.eqb z "Asia/Kolkata" then Some (fun _ => 19800000)
  else if String.eqb z "Europe/London" then
    Some (dst (at_utc 2024 3 31 1 0 0) (at_utc 2024 10 27 1 0 0) 0 (hours 1))
  else if String.eqb z "America/New_York" then
    Some (dst (at_utc 2024 3 10 7 0 0) (at_utc 2024 11 3 6 0 0) (hours (-5)) (hours (-4)))
  else if String.eqb z "America/Los_Angeles" then
    Some (dst (at_utc 2024 3 10 10 0 0) (at_utc 2024 11 3 9 0 0) (hours (-8)) (hours (-7)))
  else if String.eqb z "America/Juneau" then
    Some (fun t => if t <? at_utc 1867 10 19 0 31 13 then 54139000 else hours (-9))
  else None.

Definition zoneNames : list string :=
  ["UTC"; "Europe/London"; "Asia/Tokyo"; "America/New_York";
   "America/Argentina/Buenos_Aires"].

Definition zoneTable : list TimeZone :=
  [ {| name := "Europe/London"; countryName := "United Kingdom" |};
    {| name := "Asia/Tokyo"; countryName := "Japan" |};
    {| name := "America/New_York"; countryName := "United States" |};
    {| name := "America/Argentina/Buenos_Aires"; countryName := "Argentina" |} ].

(** Collation by code units. *)
Definition codeUnitCompare (a b : string) : Z :=
  match String.compare a b with Lt => -1 | Eq => 0 | Gt => 1 end.

(** The platform of a device in zone [device], with the given enumeration
    facility. *)
Definition platform (device : string)
    (enumeration : option (string -> completion (list string))) : Platform :=
  {| zoneRules := rulesOf;
     resolvedTimeZone := device;
     Intl_supportedValuesOf := enumeration;
     timeZonesNames := zoneNames;
     getTimeZones := zoneTable;
     localeCompare := codeUnitCompare |}.

(** A device in New York whose runtime enumerates three zones. *)
Definition newYork : Platform :=
  platform "America/New_York"
    (Some (fun _ => Normal ["Asia/Tokyo"; "UTC"; "Europe/London"])).

(** A device in Los Angeles whose runtime has no enumeration. *)
Definition losAngeles : Platform := platform "America/Los_Angeles" None.

(** A device in Tokyo whose enumeration throws. *)
Definition tokyo : Platform :=
  platform "Asia/Tokyo" (Some (fun _ => Throw (RangeError "Invalid key : timeZone"))).

End Sample.

(* ===================================================================== *)
(** * The clocks screen (the [ClocksScreen] component) *)
(* ===================================================================== *)

(** [String.prototype.toLowerCase] and [String.prototype.trim] follow the
    Unicode tables of the engine; the screen only needs them as functions
    on strings. *)
Class StringOps : Type := {
  toLowerCase : string -> string;
  trim : string -> string;
}.

Module ClocksScreen.

(** [s.includes(sub)]: [sub] occurs in [s]. *)
Fixpoint includes (s sub : string) : bool :=
  String.prefix sub s ||
  match s with
  | EmptyString => false
  | String _ s' => includes s' sub
  end.

(** [arr.includes(x)] on an array of strings. *)
Definition Array_includes (arr : list string) (x : string) : bool :=
  existsb (String.eqb x) arr.

(** The state of the component: the four [useState] cells. *)
Record State : Type := {
  now : Z;
  zones : list string;
  open : bool;
  query : string;
}.

(** The buttons of the confirmation alert. *)
Inductive AlertButton : Type := Cancel | Remove.

(** One row of the list of saved clocks: the three texts it shows. *)
Record ClockRow : Type := {
  cityText : string;
  timeText : string;
  detailText : string;
}.

Definition dayText (d : DayLabel) : string :=
  match d with
  | Today => "Today"
  | Tomorrow => "Tomorrow"
  | Yesterday => "Yesterday"
  end.

Section Screen.
Context `{Platform} `{StringOps}.

(** The state at mount: the clock of the moment, the device zone alone, the
    modal closed, no query. *)
Definition initial (clock : Z) : State :=
  {| now := clock; zones := [deviceZone tt]; open := false; query := "" |}.

(** The zones the modal lists for a query. *)
Definition filtered (all : list TimeZoneItem) (query : string) : list TimeZoneItem :=
  let searchTerm := toLowerCase (trim query) in
  if String.eqb searchTerm "" then all
  else
    List.filter
      (fun zone =>
         includes (toLowerCase (id zone)) searchTerm
         || includes (toLowerCase (city zone)) searchTerm
         || includes (toLowerCase (default "" (country zone))) searchTerm)
      all.

(** [addZone(id)]: if the zone is already added do nothing, else add it to
    the list; clear the query and close the modal. *)
Definition addZone (id : string) (st : State) : State :=
  {| now := now st;
     zones := (let prev := zones st in
               if Array_includes prev id then prev else prev ++ [id]);
     open := false;
     query := "" |}.

(** [removeZone(id)] shows the alert; only its Remove button changes the
    list. *)
Definition removeZone (id : string) (pressed : AlertButton) (st : State) : State :=
  match pressed with
  | Cancel => st
  | Remove =>
      {| now := now st;
         zones := List.filter (fun z => negb (String.eqb z id)) (zones st);
         open := open st;
         query := query st |}
  end.

(** [renderItem] of the list of saved clocks. *)
Definition renderItem (id : string) (now : Z) : completion ClockRow :=
  let city := cityFromZoneId id in
  timeDiffLabel ← diffLabel id now;
  day ← dayRelative id now;
  time ← timeHHmm id now;
  Normal {| cityText := city;
            timeText := time;
            detailText := timeDiffLabel +:+ " • " +:+ dayText day |}.

(** The events that change the state, apart from loading the stored list:
    choosing a zone in the modal, answering the alert of a long press, the
    tick of the minute timer, typing in the search box, and opening or
    closing the modal. *)
Inductive Event : Type :=
  | Add (id : string)
  | LongPress (id : string) (pressed : AlertButton)
  | Tick (clock : Z)
  | Type_ (text : string)
  | SetOpen (visible : bool).

Definition step (st : State) (e : Event) : State :=
  match e with
  | Add id => addZone id st
  | LongPress id pressed => removeZone id pressed st
  | Tick clock =>
      {| now := clock; zones := zones st; open := open st; query := query st |}
  | Type_ text =>
      {| now := now st; zones := zones st; open := open st; query := text |}
  | SetOpen visible =>
      {| now := now st; zones := zones st; open := visible; query := query st |}
  end.

Definition run (st : State) (events : list Event) : State := foldl step st events.

End Screen.

End ClocksScreen.

(** String operations on ASCII text, for running the screen: letters A to Z
    are lowered, blanks are trimmed at both ends. *)
Module SampleText.

Definition lower_char (c : ascii) : ascii :=
  let n := N_of_ascii c in
  if ((65 <=? n) && (n <=? 90))%N then ascii_of_N (n + 32) else c.

Fixpoint lower (s : string) : string :=
  match s with
  | EmptyString => EmptyString
  | String c s' => String (lower_char c) (lower s')
  end.

Fixpoint trim_start (s : string) : string :=
  match s with
  | String " " s' => trim_start s'
  | _ => s
  end.

Definition trim_both (s : string) : string :=
  String.rev (trim_start (String.rev (trim_start s))).

Definition ops : StringOps := {| toLowerCase := lower; trim := trim_both |}.

End SampleText.

(** A platform whose metadata table names Tokyo in two rows, and whose
    runtime enumerates two zones. *)
Module SampleDuplicates.

Definition zoneTable : list TimeZone :=
  [ {| name := "Asia/Tokyo"; countryName := "Nippon" |};
    {| name := "Europe/London"; countryName := "United Kingdom" |};
    {| name := "Asia/Tokyo"; countryName := "Japan" |};
    {| name := "America/New_York"; countryName := "United States" |} ].

Definition platform : Platform :=
  {| zoneRules := Sample.rulesOf;
     resolvedTimeZone := "Europe/London";
     Intl_supportedValuesOf := Some (fun _ => Normal ["Asia/Tokyo"; "Europe/London"]);
     timeZonesNames := Sample.zoneNames;
     getTimeZones := zoneTable;
     localeCompare := Sample.codeUnitCompare |}.

End SampleDuplicates.

(* ===================================================================== *)
(** * Notions used in the statements *)
(* ===================================================================== *)

(** The message of the error thrown for an unknown zone. *)
Definition unknownZone (z : string) : exn :=
  RangeError ("Invalid time zone specified: " +:+ z).

(** The day key of a local time value, as a string and as a number. *)
Definition dayKeyString (tl : Z) : string :=
  decimal (displayYear (YearFromTime tl)) +:+ "-" +:+ pad2 (MonthFromTime tl)
  +:+ "-" +:+ pad2 (DateFromTime tl).

Definition dateKey (tl : Z) : Z :=
  displayYear (YearFromTime tl) * 10000 + MonthFromTime tl * 100 + DateFromTime tl.

(** The classification of two day keys that the specification describes. *)
Definition classify (target device : Z) : DayLabel :=
  if target =? device then Today
  else if target - device =? 1 then Tomorrow
  else if target - device =? -1 then Yesterday
  else if 0 <? target - device then Tomorrow
  else Yesterday.

(** The first instant of the year 100: 0100-01-01T00:00:00Z. *)
Definition year100 : Z := -59011459200000.

(** The nearest multiple of [d] to [x], counted in units of [d]. *)
Definition nearest (x d : Z) : Z := (2 * x + d) / (2 * d).

Section OffsetSpecification.
Context `{Platform}.

(** The offset after the words of the specification: render the instant
    into the local fields of the zone (the year as it is displayed), read
    those same fields as a UTC instant, and round the difference to the
    original instant to the nearest minute. *)
Definition offsetMinutes_spec (zone : string) (instant : Z) : completion number :=
  match zoneRules zone with
  | None => Throw (unknownZone zone)
  | Some r =>
      let tl := instant + r instant in
      let reinterpreted :=
        utc_of_fields (displayYear (YearFromTime tl)) (MonthFromTime tl)
                      (DateFromTime tl) (HourFromTime tl) (MinFromTime tl)
                      (SecFromTime tl) in
      Normal (Num (nearest (reinterpreted - instant) 60000))
  end.

End OffsetSpecification.

(** Strings made of decimal digits only. *)
Fixpoint all_digits (s : string) : bool :=
  match s with
  | EmptyString => true
  | String c s' => match digit_value c with Some _ => all_digits s' | None => false end
  end.

(** Characters of a string. *)
Fixpoint has_char (c : ascii) (s : string) : bool :=
  match s with
  | EmptyString => false
  | String x s' => Ascii.eqb x c || has_char c s'
  end.

Fixpoint map_chars (f : ascii -> ascii) (s : string) : string :=
  match s with
  | EmptyString => EmptyString
  | String x s' => String (f x) (map_chars f s')
  end.

(** An underscore becomes a blank, every other character stays. *)
Definition underscore_to_space (c : ascii) : ascii :=
  if Ascii.eqb c "_" then " "%char else c.

(** [a] may stand before [b] under the comparator. *)
Definition before {A} (cmp : A -> A -> Z) (a b : A) : Prop := cmp a b <= 0.

(** The identifiers [getAllZones] works on: those of the runtime when it
    enumerates them, the bundled list otherwise. *)
Definition resolvedIds `{Platform} : list string :=
  match Intl_supportedValuesOf with
  | Some supportedValuesOf =>
      match supportedValuesOf "timeZone" with
      | Normal l => l
      | Throw _ => timeZonesNames
      end
  | None => timeZonesNames
  end.

(** The metadata map that [getAllZones] builds, from a starting map. *)
Definition enrich_of (tzMeta : list TimeZone) (m0 : gmap string TimeZone) :
    gmap string TimeZone :=
  foldl (fun m z => <[name z := z]> m) m0 tzMeta.

(** 2024-01-15T12:00:00Z. *)
Definition january : Z := Sample.at_utc 2024 1 15 12 0 0.

(** Settle the test of the first conditional of the goal. *)
Ltac take_branch b :=
  match goal with
  | |- context [if ?c then _ else _] =>
      let E := fresh "E" in
      assert (E : c = b); [| rewrite E; clear E]; cycle 1
  end.

(* ===================================================================== *)
(** * Lemmas on digit strings *)
(* ===================================================================== *)

Section Digits.

Lemma digit_cases d : 0 <= d <= 9 ->
  d = 0 \/ d = 1 \/ d = 2 \/ d = 3 \/ d = 4 \/ d = 5 \/ d = 6 \/ d = 7 \/ d = 8 \/ d = 9.
Proof. lia. Qed.

Lemma digit_value_char d : 0 <= d <= 9 -> digit_value (digit_char d) = Some d.
Proof.
  intros Hd. destruct (digit_cases d Hd) as [-> | Hc]; [reflexivity |].
  repeat (destruct Hc as [-> | Hc]; [reflexivity |]). subst d. reflexivity.
Qed.

Lemma mod10_digit n : 0 <= n mod 10 <= 9.
Proof. pose proof (Z.mod_pos_bound n 10). lia. Qed.

Lemma append_cons c (s1 s2 : string) : String c s1 +:+ s2 = String c (s1 +:+ s2).
Proof. reflexivity. Qed.

Lemma append_nil (s : string) : "" +:+ s = s.
Proof. reflexivity. Qed.

(** Parsing runs through a concatenation. *)
Lemma parse_digits_app s1 s2 a :
  parse_digits a (s1 +:+ s2) =
  match parse_digits a s1 with Some b => parse_digits b s2 | None => None end.
Proof.
  revert a. induction s1 as [| c s1 IH]; intros a; [reflexivity |].
  rewrite append_cons. cbn [parse_digits].
  destruct (digit_value c); [apply IH | reflexivity].
Qed.

Lemma parse_pad2 a n : 0 <= n <= 99 -> parse_digits a (pad2 n) = Some (100 * a + n).
Proof.
  intros Hn. unfold pad2. cbn [parse_digits].
  rewrite !digit_value_char by (apply mod10_digit).
  f_equal. pose proof (Z.div_mod n 10 ltac:(lia)).
  assert (n / 10 mod 10 = n / 10) by (apply Z.mod_small; lia). lia.
Qed.

Lemma append_assoc (s1 s2 s3 : string) : (s1 +:+ s2) +:+ s3 = s1 +:+ (s2 +:+ s3).
Proof.
  induction s1 as [| c s1 IH]; [reflexivity |].
  rewrite !append_cons. f_equal. exact IH.
Qed.

Lemma decimal_go_acc fuel n acc :
  decimal_go fuel n acc = decimal_go fuel n "" +:+ acc.
Proof.
  revert n acc. induction fuel as [| fuel IH]; intros n acc; cbn [decimal_go].
  - reflexivity.
  - destruct (n <? 10); [reflexivity |].
    rewrite IH. rewrite (IH _ (String _ "")).
    rewrite append_assoc. reflexivity.
Qed.

Lemma parse_decimal_go fuel n acc :
  0 <= n < 10 ^ (Z.of_nat fuel + 1) ->
  parse_digits 0 (decimal_go fuel n acc) = parse_digits n acc.
Proof.
  revert n acc. induction fuel as [| fuel IH]; intros n acc Hn; cbn [decimal_go].
  - change (10 ^ (Z.of_nat 0 + 1)) with 10 in Hn.
    cbn [parse_digits]. rewrite Z.mod_small by lia.
    rewrite digit_value_char by lia. f_equal.
  - destruct (Z.ltb_spec n 10) as [Hlt | Hge].
    + cbn [parse_digits]. rewrite Z.mod_small by lia.
      rewrite digit_value_char by lia. f_equal.
    + rewrite IH.
      * cbn [parse_digits]. rewrite digit_value_char by (apply mod10_digit).
        f_equal. pose proof (Z.div_mod n 10 ltac:(lia)). lia.
      * split; [apply Z.div_pos; lia |].
        apply Z.div_lt_upper_bound; [lia |].
        replace (Z.of_nat (S fuel) + 1) with (Z.succ (Z.of_nat fuel + 1)) in Hn by lia.
        rewrite Z.pow_succ_r in Hn by lia. lia.
Qed.

Lemma decimal_fuel n : 0 <= n -> n < 10 ^ (Z.of_nat (Z.to_nat (Z.log2 n)) + 1).
Proof.
  intros Hn. rewrite Z2Nat.id by apply Z.log2_nonneg.
  destruct (Z.eq_dec n 0) as [-> | Hne]; [reflexivity |].
  pose proof (Z.log2_spec n ltac:(lia)) as [_ Hlt].
  pose proof (Z.log2_nonneg n).
  assert (2 ^ (Z.log2 n + 1) <= 10 ^ (Z.log2 n + 1))
    by (apply Z.pow_le_mono_l; lia).
  replace (Z.succ (Z.log2 n)) with (Z.log2 n + 1) in Hlt by lia. lia.
Qed.

(** Reading back a decimal numeral that is followed by more digits. *)
Lemma parse_decimal n rest : 0 <= n ->
  parse_digits 0 (decimal n +:+ rest) = parse_digits n rest.
Proof.
  intros Hn. unfold decimal. rewrite <- decimal_go_acc.
  apply parse_decimal_go. split; [exact Hn | apply decimal_fuel, Hn].
Qed.

Lemma Number_decimal n : 0 <= n -> Number (decimal n) = Num n.
Proof.
  intros Hn. unfold Number.
  replace (decimal n) with (decimal n +:+ "")
    by (unfold decimal; rewrite <- decimal_go_acc; reflexivity).
  rewrite parse_decimal by exact Hn. reflexivity.
Qed.

Lemma Number_pad2 n : 0 <= n <= 99 -> Number (pad2 n) = Num n.
Proof. intros Hn. unfold Number. rewrite parse_pad2 by exact Hn. f_equal. Qed.

Lemma all_digits_app s1 s2 :
  all_digits s1 = true -> all_digits s2 = true -> all_digits (s1 +:+ s2) = true.
Proof.
  induction s1 as [| c s1 IH]; intros H1 H2; [exact H2 |].
  rewrite append_cons. cbn [all_digits] in *.
  destruct (digit_value c); [auto | discriminate].
Qed.

Lemma all_digits_pad2 n : all_digits (pad2 n) = true.
Proof.
  unfold pad2. cbn [all_digits]. rewrite !digit_value_char by apply mod10_digit.
  reflexivity.
Qed.

Lemma all_digits_decimal_go fuel n acc :
  all_digits acc = true -> all_digits (decimal_go fuel n acc) = true.
Proof.
  revert n acc. induction fuel as [| fuel IH]; intros n acc Hacc; cbn [decimal_go].
  - cbn [all_digits]. rewrite digit_value_char by apply mod10_digit. exact Hacc.
  - destruct (n <? 10).
    + cbn [all_digits]. rewrite digit_value_char by apply mod10_digit. exact Hacc.
    + apply IH. cbn [all_digits].
      rewrite digit_value_char by apply mod10_digit. exact Hacc.
Qed.

Lemma all_digits_decimal n : all_digits (decimal n) = true.
Proof. apply all_digits_decimal_go. reflexivity. Qed.

(** Removing hyphens leaves a run of digits alone. *)
Lemma remove_hyphens_digits s rest :
  all_digits s = true ->
  replace_all "-" "" (s +:+ rest) = s +:+ replace_all "-" "" rest.
Proof.
  induction s as [| c s IH]; intros Hs; [reflexivity |].
  rewrite !append_cons. cbn [all_digits replace_all] in *.
  destruct (digit_value c) eqn:Hc; [| discriminate].
  destruct (Ascii.eqb_spec c "-") as [-> | _]; [discriminate |].
  rewrite IH by exact Hs. reflexivity.
Qed.

End Digits.

(* ===================================================================== *)
(** * Lemmas on the calendar *)
(* ===================================================================== *)

Section CalendarFacts.

(** The year of the era and the day of that year, inside one era. *)
Lemma year_of_era doe : 0 <= doe < 146097 ->
  let yoe := (doe - doe / 1460 + doe / 36524 - doe / 146096) / 365 in
  0 <= yoe < 400 /\ 0 <= doe - (365 * yoe + yoe / 4 - yoe / 100) <= 365.
Proof. intros H. cbv zeta. lia. Qed.

Lemma pair3_eq (a a' b b' c c' : Z) :
  (a, b, c) = (a', b', c') -> a = a' /\ b = b' /\ c = c'.
Proof. intros E. split; [| split]; congruence. Qed.

Lemma month_index_cases mp : 0 <= mp <= 11 ->
  mp = 0 \/ mp = 1 \/ mp = 2 \/ mp = 3 \/ mp = 4 \/ mp = 5 \/ mp = 6
  \/ mp = 7 \/ mp = 8 \/ mp = 9 \/ mp = 10 \/ mp = 11.
Proof. lia. Qed.

(** Months are 1..12 and days 1..31. *)
Lemma civil_from_days_range z y m d :
  civil_from_days z = (y, m, d) -> 1 <= m <= 12 /\ 1 <= d <= 31.
Proof.
  unfold civil_from_days. cbv zeta.
  pose proof (year_of_era ((z + 719468) mod 146097)) as H. cbv zeta in H.
  set (doe := (z + 719468) mod 146097) in *.
  assert (Hd : 0 <= doe < 146097) by (subst doe; apply Z.mod_pos_bound; lia).
  specialize (H Hd).
  set (yoe := (doe - doe / 1460 + doe / 36524 - doe / 146096) / 365) in *.
  set (doy := doe - (365 * yoe + yoe / 4 - yoe / 100)) in *.
  intros E. apply pair3_eq in E. destruct E as (_ & Em & Ed). subst m d.
  destruct H as [_ H]. clearbody doy.
  set (mp := (5 * doy + 2) / 153).
  assert (Hmp : 0 <= mp <= 11) by (subst mp; lia).
  assert (Hlo : 153 * mp <= 5 * doy + 2 < 153 * mp + 153) by (subst mp; lia).
  clearbody mp.
  destruct (Z.ltb_spec mp 10);
    destruct (month_index_cases mp Hmp) as [Hc | Hc];
    repeat (destruct Hc as [Hc | Hc]); subst mp; lia.
Qed.

(** The day number of the date of a day number is that day number. *)
Lemma days_from_civil_from_days z y m d :
  civil_from_days z = (y, m, d) -> days_from_civil y m d = z.
Proof.
  unfold civil_from_days, days_from_civil. cbv zeta.
  pose proof (year_of_era ((z + 719468) mod 146097)) as H. cbv zeta in H.
  pose proof (Z.div_mod (z + 719468) 146097 ltac:(lia)) as Hz.
  set (doe := (z + 719468) mod 146097) in *.
  set (era := (z + 719468) / 146097) in *.
  assert (Hd : 0 <= doe < 146097) by (subst doe; apply Z.mod_pos_bound; lia).
  specialize (H Hd).
  set (yoe := (doe - doe / 1460 + doe / 36524 - doe / 146096) / 365) in *.
  set (doy := doe - (365 * yoe + yoe / 4 - yoe / 100)) in *.
  destruct H as [Hy H].
  assert (Hdoe : doe = 365 * yoe + yoe / 4 - yoe / 100 + doy) by (subst doy; lia).
  clearbody doy yoe. clearbody doe era.
  intros E. apply pair3_eq in E. destruct E as (Ey & Em & Ed). subst m d y.
  set (mp := (5 * doy + 2) / 153) in *.
  assert (Hmp : 0 <= mp <= 11) by (subst mp; lia).
  assert (Hdoy : (153 * mp + 2) / 5 <= doy) by (subst mp; lia).
  destruct (Z.ltb_spec mp 10) as [E1 | E1].
  - replace (mp + 3 <=? 2) with false by (symmetry; apply Z.leb_gt; lia).
    replace (mp + 3 >? 2) with true by (symmetry; apply Z.gtb_lt; lia).
    replace (mp + 3 - 3) with mp by lia.
    replace ((yoe + era * 400) / 400) with era by (clear - Hy; lia).
    replace ((yoe + era * 400) mod 400) with yoe by (clear - Hy; lia).
    lia.
  - replace (mp - 9 <=? 2) with true by (symmetry; apply Z.leb_le; lia).
    replace (mp - 9 >? 2) with false
      by (symmetry; rewrite Z.gtb_ltb; apply Z.ltb_ge; lia).
    replace (mp - 9 + 9) with mp by lia.
    lia.
Qed.

(** The day number is linear in the day of the month. *)
Lemma days_from_civil_day y m d : days_from_civil y m d = days_from_civil y m 1 + d - 1.
Proof. unfold days_from_civil. cbv zeta. lia. Qed.

(** From 0100-01-01 on, the year is at least 100. *)
Lemma civil_from_days_year_100 z : -683003 <= z -> 100 <= (civil_from_days z).1.1.
Proof.
  intros Hz. unfold civil_from_days. cbv zeta. cbn [fst snd].
  pose proof (year_of_era ((z + 719468) mod 146097)) as H. cbv zeta in H.
  pose proof (Z.div_mod (z + 719468) 146097 ltac:(lia)) as Hdm.
  set (doe := (z + 719468) mod 146097) in *.
  set (era := (z + 719468) / 146097) in *.
  assert (Hd : 0 <= doe < 146097) by (subst doe; apply Z.mod_pos_bound; lia).
  specialize (H Hd).
  set (yoe := (doe - doe / 1460 + doe / 36524 - doe / 146096) / 365) in *.
  set (doy := doe - (365 * yoe + yoe / 4 - yoe / 100)) in *.
  destruct H as [Hy H].
  assert (Hera : 0 <= era) by (subst era; apply Z.div_pos; lia).
  destruct (Z.eq_dec era 0) as [E0 | Hne].
  - assert (Hdoe : 36465 <= doe) by lia.
    assert (Hyoe : 99 <= yoe) by (subst yoe; clear - Hdoe Hd; lia).
    destruct (Z.eq_dec yoe 99) as [E99 | Hne99].
    + assert (Hdoy : 306 <= doy) by (subst doy; rewrite E99; clear - Hdoe; lia).
      set (mp := (5 * doy + 2) / 153).
      assert (Hmp : 10 <= mp <= 11) by (subst mp; clear - Hdoy H; lia).
      clearbody doy yoe mp.
      replace (mp <? 10) with false by (symmetry; apply Z.ltb_ge; lia).
      replace (mp - 9 <=? 2) with true by (symmetry; apply Z.leb_le; lia).
      lia.
    + clearbody doy yoe. destruct (_ <=? 2); lia.
  - clearbody doy yoe. destruct (_ <=? 2); lia.
Qed.

Lemma time_within_day_range t :
  0 <= HourFromTime t <= 23 /\ 0 <= MinFromTime t <= 59 /\ 0 <= SecFromTime t <= 59.
Proof.
  unfold HourFromTime, MinFromTime, SecFromTime, msPerHour, msPerMinute, msPerSecond.
  lia.
Qed.

(** Days and time within the day make up the time value again, up to the
    milliseconds that the fields do not show. *)
Lemma time_value_fields t :
  Day t * msPerDay + MakeTime (HourFromTime t) (MinFromTime t) (SecFromTime t) 0
  = t - t mod 1000.
Proof.
  unfold Day, MakeTime, HourFromTime, MinFromTime, SecFromTime,
    msPerDay, msPerHour, msPerMinute, msPerSecond.
  lia.
Qed.

Lemma date_fields_range t :
  1 <= MonthFromTime t <= 12 /\ 1 <= DateFromTime t <= 31.
Proof.
  unfold MonthFromTime, DateFromTime.
  destruct (civil_from_days (Day t)) as [[y m] d] eqn:E.
  exact (civil_from_days_range _ _ _ _ E).
Qed.

Lemma days_from_civil_fields t :
  days_from_civil (YearFromTime t) (MonthFromTime t) (DateFromTime t) = Day t.
Proof.
  unfold YearFromTime, MonthFromTime, DateFromTime.
  destruct (civil_from_days (Day t)) as [[y m] d] eqn:E.
  exact (days_from_civil_from_days _ _ _ _ E).
Qed.

Lemma YearFromTime_100 t : year100 <= t -> 100 <= YearFromTime t.
Proof.
  intros Ht. unfold YearFromTime. apply civil_from_days_year_100.
  unfold Day, msPerDay, year100 in *. lia.
Qed.

End CalendarFacts.

(* ===================================================================== *)
(** * What the formatters print *)
(* ===================================================================== *)

Lemma displayYear_pos y : 1 <= displayYear y.
Proof. unfold displayYear. destruct (Z.leb_spec y 0); lia. Qed.

Lemma displayYear_100 y : 100 <= y -> displayYear y = y.
Proof. intros Hy. unfold displayYear. destruct (Z.leb_spec y 0); lia. Qed.

Section Formatters.
Context `{Platform}.

Lemma dayKey_known z r t :
  zoneRules z = Some r -> dayKey t z = Normal (dayKeyString (t + r t)).
Proof.
  intros Hz. unfold dayKey, new_DateTimeFormat. cbn [timeZone]. rewrite Hz.
  reflexivity.
Qed.

Lemma dayKey_unknown z t : zoneRules z = None -> dayKey t z = Throw (unknownZone z).
Proof.
  intros Hz. unfold dayKey, new_DateTimeFormat. cbn [timeZone]. rewrite Hz.
  reflexivity.
Qed.

(** [toNum] of a day key. *)
Lemma toNum_dayKeyString tl :
  Number (replace_all "-" "" (dayKeyString tl)) = Num (dateKey tl).
Proof.
  unfold dayKeyString, dateKey.
  pose proof (date_fields_range tl) as [Hm Hd].
  pose proof (displayYear_pos (YearFromTime tl)) as Hy.
  set (Y := displayYear (YearFromTime tl)) in *.
  set (m := MonthFromTime tl) in *. set (d := DateFromTime tl) in *.
  rewrite remove_hyphens_digits by apply all_digits_decimal.
  change ("-" +:+ pad2 m +:+ "-" +:+ pad2 d)
    with (String "-" (pad2 m +:+ "-" +:+ pad2 d)).
  cbn [replace_all]. change (Ascii.eqb "-" "-") with true. cbv iota.
  rewrite append_nil.
  rewrite remove_hyphens_digits by apply all_digits_pad2.
  change ("-" +:+ pad2 d) with (String "-" (pad2 d +:+ "")).
  cbn [replace_all]. change (Ascii.eqb "-" "-") with true. cbv iota.
  rewrite append_nil.
  rewrite remove_hyphens_digits by apply all_digits_pad2.
  cbn [replace_all].
  unfold Number. rewrite parse_decimal by lia.
  rewrite parse_digits_app, parse_pad2 by lia.
  rewrite parse_digits_app, parse_pad2 by lia.
  cbn [parse_digits]. f_equal. lia.
Qed.

(** Two day keys are the same string exactly when they are the same number. *)
Lemma dayKeyString_eqb a b :
  String.eqb (dayKeyString a) (dayKeyString b) = (dateKey a =? dateKey b).
Proof.
  destruct (Z.eqb_spec (dateKey a) (dateKey b)) as [E | NE].
  - apply String.eqb_eq.
    pose proof (date_fields_range a) as [Hma Hda].
    pose proof (date_fields_range b) as [Hmb Hdb].
    unfold dateKey in E. unfold dayKeyString.
    assert (displayYear (YearFromTime a) = displayYear (YearFromTime b)) as -> by lia.
    assert (MonthFromTime a = MonthFromTime b) as -> by lia.
    assert (DateFromTime a = DateFromTime b) as -> by lia.
    reflexivity.
  - apply String.eqb_neq. intros E. apply NE.
    pose proof (toNum_dayKeyString a) as Ha. rewrite E in Ha.
    rewrite toNum_dayKeyString in Ha. congruence.
Qed.

(** The numbers [offsetMinutes] reads back from the parts. *)
Lemma offsetMinutes_known z r t :
  zoneRules z = Some r ->
  let tl := t + r t in
  offsetMinutes z t =
  Normal (Math_round_div
            (nsub (Date_UTC (Num (displayYear (YearFromTime tl)))
                            (Num (MonthFromTime tl - 1)) (Num (DateFromTime tl))
                            (Num (HourFromTime tl)) (Num (MinFromTime tl))
                            (Num (SecFromTime tl)))
                  (Num t))
            60000).
Proof.
  intros Hz tl. unfold offsetMinutes, new_DateTimeFormat. cbn [timeZone]. rewrite Hz.
  pose proof (date_fields_range tl) as [Hm Hd].
  pose proof (time_within_day_range tl) as (Hh & Hmi & Hs).
  pose proof (displayYear_pos (YearFromTime tl)) as Hy.
  cbv [mbind completion_bind formatToParts pattern resolvePattern date_order
       omap requested fmap option_fmap option_map year month day hour minute second
       intersperse date_separator app map render_item field_name localTime rules
       find String.eqb Ascii.eqb Bool.eqb type value Number_opt render_number
       list_omap].
  fold tl. unfold field_value.
  rewrite Number_decimal by lia.
  rewrite !Number_pad2 by lia.
  reflexivity.
Qed.

Lemma offsetMinutes_unknown z t :
  zoneRules z = None -> offsetMinutes z t = Throw (unknownZone z).
Proof.
  intros Hz. unfold offsetMinutes, new_DateTimeFormat. cbn [timeZone]. rewrite Hz.
  reflexivity.
Qed.

Lemma timeHHmm_known z r t :
  zoneRules z = Some r ->
  timeHHmm z t =
  Normal (pad2 (HourFromTime (t + r t)) +:+ ":" +:+ pad2 (MinFromTime (t + r t))).
Proof.
  intros Hz. unfold timeHHmm, new_DateTimeFormat. cbn [timeZone]. rewrite Hz.
  reflexivity.
Qed.

Lemma timeHHmm_unknown z t :
  zoneRules z = None -> timeHHmm z t = Throw (unknownZone z).
Proof.
  intros Hz. unfold timeHHmm, new_DateTimeFormat. cbn [timeZone]. rewrite Hz.
  reflexivity.
Qed.

(** [getAllZones] always returns: the sorted entries of the resolved ids. *)
Lemma getAllZones_known :
  getAllZones tt =
  Normal (sort (fun a b => localeCompare (city a) (city b))
            (map (fun i => {| id := i; city := cityFromZoneId i;
                              country := countryName <$> enrich_of getTimeZones ∅ !! i |})
                 resolvedIds)).
Proof.
  unfold getAllZones, resolvedIds.
  destruct Intl_supportedValuesOf as [f |]; [| reflexivity].
  destruct (f "timeZone"); reflexivity.
Qed.

End Formatters.

(* ===================================================================== *)
(** * [Date.UTC] on the fields of a local time *)
(* ===================================================================== *)

Section DateUTC.

(** Once the year is resolved to a full year, from the year 100 on and
    inside the range of time values, [Date.UTC] is the instant whose UTC
    reading is the given fields. *)
Lemma Date_UTC_resolved y m d hh mm ss :
  100 <= MakeFullYear y -> 1 <= m <= 12 -> 1 <= d <= 31 ->
  0 <= hh <= 23 -> 0 <= mm <= 59 -> 0 <= ss <= 59 ->
  utc_of_fields (MakeFullYear y) m d hh mm ss <= maxTime ->
  Date_UTC (Num y) (Num (m - 1)) (Num d) (Num hh) (Num mm) (Num ss)
  = Num (utc_of_fields (MakeFullYear y) m d hh mm ss).
Proof.
  intros Hy Hm Hd Hh Hmi Hs Hmax.
  unfold Date_UTC. cbv zeta. set (yr := MakeFullYear y) in *. clearbody yr.
  unfold MakeDay.
  replace ((m - 1) / 12) with 0 by lia.
  replace ((m - 1) mod 12 + 1) with m by lia.
  replace (yr + 0) with yr by lia.
  unfold utc_of_fields in *. rewrite (days_from_civil_day yr m d) in *.
  assert (Hlow : -719468 <= days_from_civil yr m 1).
  { unfold days_from_civil. cbv zeta.
    destruct (Z.leb_spec m 2); destruct (Z.gtb_spec m 2); lia. }
  set (D := days_from_civil yr m 1) in *. clearbody D.
  assert (Htime : 0 <= MakeTime hh mm ss 0 < msPerDay)
    by (unfold MakeTime, msPerHour, msPerMinute, msPerSecond, msPerDay; lia).
  set (T := MakeTime hh mm ss 0) in *. clearbody T.
  unfold Day. rewrite Z.div_mul by (unfold msPerDay; lia).
  unfold maxTime, msPerDay in *.
  take_branch true; [| apply andb_true_iff; split; apply Z.leb_le; lia].
  unfold MakeDate, TimeClip, maxTime, msPerDay.
  take_branch true; [| apply Z.leb_le; lia].
  reflexivity.
Qed.

Lemma MakeFullYear_100 y : 100 <= y -> MakeFullYear y = y.
Proof.
  intros Hy. unfold MakeFullYear.
  take_branch false; [reflexivity |].
  apply andb_false_iff; right; apply Z.leb_gt; lia.
Qed.

Lemma MakeFullYear_range y : 1 <= y -> 100 <= MakeFullYear y <= Z.max 1999 y.
Proof.
  intros Hy. unfold MakeFullYear.
  destruct (Z.leb_spec 0 y); destruct (Z.leb_spec y 99); cbn [andb]; lia.
Qed.

Lemma Date_UTC_exact y m d hh mm ss :
  100 <= y -> 1 <= m <= 12 -> 1 <= d <= 31 ->
  0 <= hh <= 23 -> 0 <= mm <= 59 -> 0 <= ss <= 59 ->
  utc_of_fields y m d hh mm ss <= maxTime ->
  Date_UTC (Num y) (Num (m - 1)) (Num d) (Num hh) (Num mm) (Num ss)
  = Num (utc_of_fields y m d hh mm ss).
Proof.
  intros Hy Hm Hd Hh Hmi Hs Hmax.
  rewrite <- (MakeFullYear_100 y Hy) at 2.
  apply Date_UTC_resolved; rewrite ?MakeFullYear_100; assumption.
Qed.

(** No day number of a Date lies before the year -272000. *)
Lemma civil_from_days_year_low z : -100000001 <= z -> -272000 <= (civil_from_days z).1.1.
Proof.
  intros Hz. unfold civil_from_days. cbv zeta. cbn [fst snd].
  pose proof (year_of_era ((z + 719468) mod 146097)) as H. cbv zeta in H.
  pose proof (Z.div_mod (z + 719468) 146097 ltac:(lia)) as Hdm.
  set (doe := (z + 719468) mod 146097) in *.
  set (era := (z + 719468) / 146097) in *.
  assert (Hd : 0 <= doe < 146097) by (subst doe; apply Z.mod_pos_bound; lia).
  specialize (H Hd). destruct H as [Hy _].
  set (yoe := (doe - doe / 1460 + doe / 36524 - doe / 146096) / 365) in *.
  clearbody yoe doe era.
  destruct (_ <=? 2); lia.
Qed.

(** Up to the year 272001 every date is a time value. *)
Lemma utc_of_fields_upper y m d hh mm ss :
  y <= 272001 -> 1 <= m <= 12 -> 1 <= d <= 31 ->
  0 <= hh <= 23 -> 0 <= mm <= 59 -> 0 <= ss <= 59 ->
  utc_of_fields y m d hh mm ss <= maxTime.
Proof.
  intros Hy Hm Hd Hh Hmi Hs.
  unfold utc_of_fields, MakeTime, msPerDay, msPerHour, msPerMinute, msPerSecond, maxTime.
  assert (Hdays : days_from_civil y m d <= 99000000).
  { unfold days_from_civil. cbv zeta.
    destruct (Z.leb_spec m 2); destruct (Z.gtb_spec m 2); lia. }
  lia.
Qed.

(** The fields of a local time value, read as UTC, are that time value
    without its milliseconds. *)
Lemma utc_of_fields_local tl :
  utc_of_fields (YearFromTime tl) (MonthFromTime tl) (DateFromTime tl)
                (HourFromTime tl) (MinFromTime tl) (SecFromTime tl)
  = tl - tl mod 1000.
Proof.
  unfold utc_of_fields. rewrite days_from_civil_fields. apply time_value_fields.
Qed.

Lemma Date_UTC_local tl :
  year100 <= tl <= maxTime ->
  Date_UTC (Num (displayYear (YearFromTime tl))) (Num (MonthFromTime tl - 1))
           (Num (DateFromTime tl)) (Num (HourFromTime tl)) (Num (MinFromTime tl))
           (Num (SecFromTime tl))
  = Num (tl - tl mod 1000).
Proof.
  intros [Hlo Hhi].
  pose proof (YearFromTime_100 tl Hlo) as Hy.
  pose proof (date_fields_range tl) as [Hm Hd].
  pose proof (time_within_day_range tl) as (Hh & Hmi & Hs).
  rewrite displayYear_100 by exact Hy.
  rewrite Date_UTC_exact; try assumption.
  - now rewrite utc_of_fields_local.
  - rewrite utc_of_fields_local. lia.
Qed.

(** At every local time that is a time value, or up to a day before the
    first one, [Date.UTC] of the displayed fields is a number. *)
Lemma Date_UTC_number tl :
  - maxTime - msPerDay <= tl <= maxTime ->
  exists v,
    Date_UTC (Num (displayYear (YearFromTime tl))) (Num (MonthFromTime tl - 1))
             (Num (DateFromTime tl)) (Num (HourFromTime tl)) (Num (MinFromTime tl))
             (Num (SecFromTime tl))
    = Num v.
Proof.
  intros [Hlo Hhi].
  pose proof (date_fields_range tl) as [Hm Hd].
  pose proof (time_within_day_range tl) as (Hh & Hmi & Hs).
  destruct (Z_le_gt_dec year100 tl) as [H100 | Hold].
  - eexists. apply Date_UTC_local. split; assumption.
  - pose proof (displayYear_pos (YearFromTime tl)) as Hpos.
    pose proof (MakeFullYear_range _ Hpos) as [Hfull Hmax].
    assert (Hy : displayYear (YearFromTime tl) <= 272001).
    { assert (Hday : -100000001 <= Day tl)
        by (unfold Day, maxTime, msPerDay in *; lia).
      pose proof (civil_from_days_year_low _ Hday) as Hyear.
      fold (YearFromTime tl) in Hyear.
      unfold displayYear. destruct (Z.leb_spec (YearFromTime tl) 0); [lia |].
      assert (YearFromTime tl <= 272001); [| lia].
      destruct (Z_le_gt_dec (YearFromTime tl) 272001) as [Hle | Hgt]; [exact Hle |].
      exfalso.
      pose proof (days_from_civil_fields tl) as Hdfc.
      assert (-683003 <= days_from_civil (YearFromTime tl) (MonthFromTime tl)
                                         (DateFromTime tl)).
      { unfold days_from_civil. cbv zeta.
        destruct (Z.leb_spec (MonthFromTime tl) 2);
          destruct (Z.gtb_spec (MonthFromTime tl) 2); lia. }
      unfold Day, year100, msPerDay in *. lia. }
    eexists. apply Date_UTC_resolved; try assumption.
    apply utc_of_fields_upper; try assumption. lia.
Qed.

End DateUTC.

(* ===================================================================== *)
(** * The offset, as the specification words it *)
(* ===================================================================== *)

Lemma nearest_spec x d : 0 < d -> Z.abs (2 * (nearest x d * d - x)) <= d.
Proof. intros Hd. unfold nearest. nia. Qed.

Section OffsetSpec.
Context `{Platform}.

(** Where the local time lies between the year 100 and the last time value,
    the code computes what the specification describes: the offset of the
    zone, less the milliseconds of the local time, rounded to the minute. *)
Lemma offsetMinutes_exact z r t :
  zoneRules z = Some r ->
  year100 <= t + r t <= maxTime ->
  offsetMinutes z t = Normal (Num (nearest (r t - (t + r t) mod 1000) 60000))
  /\ offsetMinutes z t = offsetMinutes_spec z t.
Proof.
  intros Hz Hdom.
  rewrite (offsetMinutes_known z r t Hz). cbv zeta.
  unfold offsetMinutes_spec. rewrite Hz. cbv zeta.
  rewrite Date_UTC_local by exact Hdom.
  rewrite displayYear_100 by (apply YearFromTime_100; lia).
  rewrite utc_of_fields_local.
  cbn [nsub lift2 Math_round_div]. unfold nearest.
  split; do 2 f_equal; f_equal; lia.
Qed.

(** A zone whose offset is a whole number of minutes gets exactly that
    number. *)
Lemma nearest_whole_minutes q ms : 0 <= ms < 1000 -> nearest (q * 60000 - ms) 60000 = q.
Proof. intros Hms. unfold nearest. lia. Qed.

End OffsetSpec.

(* ===================================================================== *)
(** * Sorting *)
(* ===================================================================== *)

Section Sorting.
Context {A : Type} (cmp : A -> A -> Z).

Lemma sort_insert_perm x l : Permutation (sort_insert cmp x l) (x :: l).
Proof.
  induction l as [| y l IH]; cbn [sort_insert]; [reflexivity |].
  destruct (0 <? cmp x y); [| reflexivity].
  rewrite IH. apply perm_swap.
Qed.

Lemma sort_perm l : Permutation (sort cmp l) l.
Proof.
  induction l as [| x l IH]; cbn; [reflexivity |].
  fold (sort cmp l). rewrite sort_insert_perm. now constructor.
Qed.

Hypothesis cmp_total : forall a b, before cmp a b \/ before cmp b a.
Hypothesis cmp_trans : forall a b c, before cmp a b -> before cmp b c -> before cmp a c.

Lemma sort_insert_sorted x l :
  StronglySorted (before cmp) l -> StronglySorted (before cmp) (sort_insert cmp x l).
Proof.
  induction l as [| y l IH]; cbn [sort_insert]; intros Hs.
  - constructor; constructor.
  - apply StronglySorted_inv in Hs as [Hl Hy].
    destruct (Z.ltb_spec 0 (cmp x y)) as [Hgt | Hle].
    + constructor; [apply IH, Hl |].
      rewrite (sort_insert_perm x l). constructor; [| exact Hy].
      destruct (cmp_total y x) as [Hyx | Hxy]; [exact Hyx |].
      unfold before in Hxy. lia.
    + constructor; [constructor; assumption |].
      constructor; [exact Hle |].
      eapply Forall_impl; [exact Hy |].
      intros z Hz. exact (cmp_trans x y z Hle Hz).
Qed.

Lemma sort_sorted l : StronglySorted (before cmp) (sort cmp l).
Proof.
  induction l as [| x l IH]; cbn; [constructor |].
  apply sort_insert_sorted, IH.
Qed.

End Sorting.

(* ===================================================================== *)
(** * The last segment of an identifier *)
(* ===================================================================== *)

Section Segments.

Lemma replace_underscores s :
  replace_all "_" " " s = map_chars underscore_to_space s.
Proof.
  induction s as [| x s IH]; cbn [replace_all map_chars]; [reflexivity |].
  unfold underscore_to_space at 1.
  destruct (Ascii.eqb x "_"); rewrite IH; reflexivity.
Qed.

Lemma split_no_separator c s : has_char c s = false -> split c s = [s].
Proof.
  induction s as [| x s IH]; cbn [has_char split]; [reflexivity |].
  intros Hs. apply orb_false_iff in Hs as [Hx Hs].
  rewrite Hx, (IH Hs). reflexivity.
Qed.

Lemma split_after_separator c pre seg :
  has_char c seg = false ->
  exists h t, split c (pre +:+ String c seg) = h :: t /\ last t = Some seg.
Proof.
  intros Hseg. induction pre as [| x pre (h & t & IH & Hlast)].
  - rewrite append_nil. cbn [split]. rewrite Ascii.eqb_refl.
    rewrite (split_no_separator c seg Hseg). exists EmptyString, [seg]. auto.
  - rewrite append_cons. cbn [split]. rewrite IH.
    destruct (Ascii.eqb x c).
    + exists EmptyString, (h :: t). split; [reflexivity |].
      destruct t; [discriminate | exact Hlast].
    + exists (String x h), t. auto.
Qed.

(** An identifier either has no slash, or is a prefix, a slash and a
    segment without slash. *)
Lemma last_separator c s :
  has_char c s = false \/
  exists pre seg, s = pre +:+ String c seg /\ has_char c seg = false.
Proof.
  induction s as [| x s IH]; [left; reflexivity |].
  destruct IH as [Hs | (pre & seg & -> & Hseg)].
  - cbn [has_char]. destruct (Ascii.eqb_spec x c) as [-> | Hne].
    + right. exists EmptyString, s. auto.
    + left. exact Hs.
  - right. exists (String x pre), seg. auto.
Qed.

End Segments.

(* ===================================================================== *)
(** * The metadata map *)
(* ===================================================================== *)

Section Enrich.

Lemma enrich_lookup_Some tzMeta m0 k z :
  enrich_of tzMeta m0 !! k = Some z ->
  (z ∈ tzMeta /\ name z = k) \/ m0 !! k = Some z.
Proof.
  revert m0. induction tzMeta as [| y l IH]; intros m0; cbn [enrich_of foldl].
  - auto.
  - intros Hl. apply IH in Hl as [[Hin Hn] | Hl].
    + left. split; [now apply list_elem_of_further | exact Hn].
    + destruct (decide (name y = k)) as [E | NE].
      * rewrite E, lookup_insert_eq in Hl. injection Hl as ->.
        left. split; [apply list_elem_of_here | exact E].
      * rewrite lookup_insert_ne in Hl by exact NE. now right.
Qed.

Lemma enrich_lookup_None tzMeta m0 k :
  enrich_of tzMeta m0 !! k = None ->
  m0 !! k = None /\ forall z, z ∈ tzMeta -> name z <> k.
Proof.
  revert m0. induction tzMeta as [| y l IH]; intros m0; cbn [enrich_of foldl].
  - intros Hl. split; [exact Hl |]. intros z Hz. inversion Hz.
  - intros Hl. apply IH in Hl as [Hl Hall].
    destruct (decide (name y = k)) as [E | NE].
    + rewrite E, lookup_insert_eq in Hl. discriminate.
    + rewrite lookup_insert_ne in Hl by exact NE. split; [exact Hl |].
      intros z Hz. apply elem_of_cons in Hz as [-> | Hz]; [exact NE | now apply Hall].
Qed.

End Enrich.

(* ===================================================================== *)
(** * Facts about the sample platform *)
(* ===================================================================== *)

Section SampleFacts.

Lemma codeUnitCompare_le a b : Sample.codeUnitCompare a b <= 0 <-> String.le a b.
Proof.
  unfold Sample.codeUnitCompare, String.le, String.leb.
  destruct (String.compare a b); cbn; intuition (try lia; try done).
Qed.

Lemma codeUnitCompare_total a b :
  Sample.codeUnitCompare a b <= 0 \/ Sample.codeUnitCompare b a <= 0.
Proof. rewrite !codeUnitCompare_le. apply String.le_total. Qed.

Lemma codeUnitCompare_trans a b c :
  Sample.codeUnitCompare a b <= 0 -> Sample.codeUnitCompare b c <= 0 ->
  Sample.codeUnitCompare a c <= 0.
Proof. rewrite !codeUnitCompare_le. apply String.le_po. Qed.

End SampleFacts.

(* ===================================================================== *)
(** * The properties of the specification *)
(* ===================================================================== *)

Section Properties.
Context `{Platform}.

(** C1. [dayRelative] takes the local calendar date of the device zone and
    of the target zone at the same instant as the integers
    year * 10000 + month * 100 + day (2024-06-15 is 20240615; the year is
    the displayed one) and classifies them: equal keys are Today, a
    difference of exactly 1 is Tomorrow, of exactly -1 Yesterday, and any
    other difference Tomorrow when positive and Yesterday when negative. *)
Theorem dayRelative_classifies (targetZone : string) (instant : Z) (rT rD : Z -> Z) :
  zoneRules targetZone = Some rT ->
  zoneRules (deviceZone tt) = Some rD ->
  dayRelative targetZone instant =
    Normal (classify (dateKey (instant + rT instant)) (dateKey (instant + rD instant)))
  /\ dateKey (utc_of_fields 2024 6 15 0 0 0) = 20240615.
Proof.
  intros HT HD. split; [| reflexivity].
  unfold dayRelative. rewrite (dayKey_known _ _ _ HD), (dayKey_known _ _ _ HT).
  cbn [mbind completion_bind].
  rewrite dayKeyString_eqb, !toNum_dayKeyString. unfold classify.
  cbn [nsub lift2 neq ngt].
  destruct (_ =? _); [reflexivity |].
  destruct (_ =? 1); [reflexivity |].
  destruct (_ =? -1); reflexivity.
Qed.

(** C3. [diffLabel] renders d = offsetMinutes(target) - offsetMinutes(device):
    a plus sign for d >= 0 and a minus glyph that is not the hyphen for
    d < 0, then the whole hours of |d|, and the remaining minutes only when
    they are not zero; d = 0 is "+0h". *)
Theorem diffLabel_renders (targetZone : string) (instant a b : Z) :
  offsetMinutes targetZone instant = Normal (Num a) ->
  offsetMinutes (deviceZone tt) instant = Normal (Num b) ->
  let d := a - b in
  let h := Z.abs d / 60 in
  let m := Z.abs d mod 60 in
  diffLabel targetZone instant =
    Normal ((if 0 <=? d then "+" else minus_glyph) +:+ decimal h +:+
            (if m =? 0 then "h" else "h " +:+ decimal m +:+ "m"))
  /\ minus_glyph <> "-"
  /\ (d = 0 -> diffLabel targetZone instant = Normal "+0h")
  /\ (d = 180 -> diffLabel targetZone instant = Normal "+3h")
  /\ (d = -150 -> diffLabel targetZone instant = Normal (minus_glyph +:+ "2h 30m")).
Proof.
  intros Ha Hb d h m.
  assert (Hmain : diffLabel targetZone instant =
    Normal ((if 0 <=? d then "+" else minus_glyph) +:+ decimal h +:+
            (if m =? 0 then "h" else "h " +:+ decimal m +:+ "m"))).
  { unfold diffLabel. rewrite Ha, Hb. cbn [mbind completion_bind].
    cbn [nsub lift2 nge Math_abs Math_floor_div nrem truthy toString].
    fold d. rewrite Z.rem_mod_nonneg by lia. fold h m.
    assert (Hh : 0 <= h) by (subst h; lia).
    assert (Hm : 0 <= m) by (subst m; lia).
    replace (h <? 0) with false by (symmetry; apply Z.ltb_ge; exact Hh).
    replace (m <? 0) with false by (symmetry; apply Z.ltb_ge; exact Hm).
    destruct (m =? 0); reflexivity. }
  split; [exact Hmain |].
  split; [discriminate |].
  repeat split; intros Hd; rewrite Hmain; subst h m; rewrite Hd; reflexivity.
Qed.

(** C4. For a zone that the rules database does not know, the error of the
    formatter constructor comes out of every function unchanged:
    [offsetMinutes], [diffLabel] and [timeHHmm] throw it for the target
    zone; [dayRelative], which renders the device zone first, throws it for
    an unknown zone too, and for the target zone when the device zone is
    known. No function substitutes a value. *)
Theorem unknown_zone_propagates (zone : string) (instant : Z) :
  zoneRules zone = None ->
  offsetMinutes zone instant = Throw (unknownZone zone)
  /\ diffLabel zone instant = Throw (unknownZone zone)
  /\ timeHHmm zone instant = Throw (unknownZone zone)
  /\ exists z, zoneRules z = None
       /\ dayRelative zone instant = Throw (unknownZone z)
       /\ (is_Some (zoneRules (deviceZone tt)) -> z = zone).
Proof.
  intros Hz. split; [exact (offsetMinutes_unknown _ _ Hz) |].
  split; [unfold diffLabel; now rewrite (offsetMinutes_unknown _ _ Hz) |].
  split; [exact (timeHHmm_unknown _ _ Hz) |].
  unfold dayRelative.
  destruct (zoneRules (deviceZone tt)) as [rD |] eqn:HD.
  - exists zone. rewrite (dayKey_known _ _ _ HD), (dayKey_unknown _ _ Hz). auto.
  - exists (deviceZone tt). rewrite (dayKey_unknown _ _ HD).
    split; [exact HD |]. split; [reflexivity |]. intros [r Hr]. discriminate.
Qed.

(** Sortedness under one relation passes to another that holds wherever the
    first does, on the elements of the list. *)
Lemma StronglySorted_on {A} (R R' : A -> A -> Prop) (l : list A) :
  (forall a b, In a l -> In b l -> R a b -> R' a b) ->
  StronglySorted R l -> StronglySorted R' l.
Proof.
  intros Hagree Hs. induction Hs as [| x l Hl IH Hx]; [constructor |].
  constructor.
  - apply IH. intros a b Ha Hb. apply Hagree; now right.
  - apply List.Forall_forall. intros y Hy.
    rewrite List.Forall_forall in Hx.
    apply Hagree; [now left | now right | now apply Hx].
Qed.

(** C5. [getAllZones] never throws. Its identifiers are those of the runtime
    enumeration when the runtime has one and it returns, and those of the
    bundled list when the facility is absent or throws. The city of every
    entry is [cityFromZoneId] of its id, and the result is sorted ascending
    by that city under the collation, which is taken to be a total
    preorder. *)
Theorem getAllZones_resolution_sorted :
  (forall a b, localeCompare a b <= 0 \/ localeCompare b a <= 0) ->
  (forall a b c, localeCompare a b <= 0 -> localeCompare b c <= 0 ->
                 localeCompare a c <= 0) ->
  exists items,
    getAllZones tt = Normal items
    /\ (forall item, In item items -> city item = cityFromZoneId (id item))
    /\ StronglySorted
         (fun a b => localeCompare (cityFromZoneId (id a)) (cityFromZoneId (id b)) <= 0)
         items
    /\ StronglySorted (fun a b => localeCompare (city a) (city b) <= 0) items
    /\ (forall f l, Intl_supportedValuesOf = Some f -> f "timeZone" = Normal l ->
          Permutation (map id items) l)
    /\ (Intl_supportedValuesOf = None -> Permutation (map id items) timeZonesNames)
    /\ (forall f e, Intl_supportedValuesOf = Some f -> f "timeZone" = Throw e ->
          Permutation (map id items) timeZonesNames).
Proof.
  intros Htotal Htrans. rewrite getAllZones_known. eexists. split; [reflexivity |].
  set (entries :=
         map (fun i => {| id := i; city := cityFromZoneId i;
                          country := countryName <$> enrich_of getTimeZones ∅ !! i |})
             resolvedIds).
  set (items := sort (fun a b => localeCompare (city a) (city b)) entries).
  assert (Hcity : forall item, In item items -> city item = cityFromZoneId (id item)).
  { intros item Hin. subst items.
    apply list_elem_of_In in Hin. rewrite sort_perm in Hin.
    apply list_elem_of_In in Hin. subst entries.
    apply in_map_iff in Hin. destruct Hin as (i & <- & _). reflexivity. }
  assert (Hsorted : StronglySorted (fun a b => localeCompare (city a) (city b) <= 0) items).
  { apply (sort_sorted (fun a b => localeCompare (city a) (city b))).
    - intros a b. apply Htotal.
    - intros a b c. apply Htrans. }
  split; [exact Hcity |].
  split.
  { apply (StronglySorted_on (fun a b => localeCompare (city a) (city b) <= 0));
      [| exact Hsorted].
    intros a b Ha Hb Hab. now rewrite <- (Hcity a Ha), <- (Hcity b Hb). }
  split; [exact Hsorted |].
  assert (Hids : Permutation (map id items) resolvedIds).
  { subst items entries. rewrite sort_perm, map_map. cbn [id]. now rewrite map_id. }
  unfold resolvedIds in Hids.
  repeat split.
  - intros f l Hf Hl. rewrite Hf, Hl in Hids. exact Hids.
  - intros Hf. rewrite Hf in Hids. exact Hids.
  - intros f e Hf He. rewrite Hf, He in Hids. exact Hids.
Qed.

(** C6. [cityFromZoneId] is a total function: the result is the part of the
    identifier after its last slash (the whole identifier when it has
    none) with every underscore turned into a blank. *)
Theorem cityFromZoneId_spec (zoneId : string) :
  (exists seg,
     cityFromZoneId zoneId = map_chars underscore_to_space seg
     /\ has_char "/" seg = false
     /\ ((has_char "/" zoneId = false /\ seg = zoneId)
         \/ exists pre, zoneId = pre +:+ String "/" seg))
  /\ has_char "_" (cityFromZoneId zoneId) = false
  /\ cityFromZoneId "America/Argentina/Buenos_Aires" = "Buenos Aires"
  /\ cityFromZoneId "UTC" = "UTC".
Proof.
  assert (Hseg : exists seg,
     cityFromZoneId zoneId = map_chars underscore_to_space seg
     /\ has_char "/" seg = false
     /\ ((has_char "/" zoneId = false /\ seg = zoneId)
         \/ exists pre, zoneId = pre +:+ String "/" seg)).
  { unfold cityFromZoneId. rewrite replace_underscores.
    destruct (last_separator "/" zoneId) as [Hno | (pre & seg & -> & Hseg)].
    - exists zoneId. rewrite (split_no_separator _ _ Hno). cbn [last default].
      auto.
    - exists seg. destruct (split_after_separator "/" pre seg Hseg) as (h & t & -> & Hl).
      replace (last (h :: t)) with (Some seg)
        by (destruct t; [discriminate | symmetry; exact Hl]).
      cbn [default]. split; [reflexivity |]. split; [exact Hseg |].
      right. now exists pre. }
  split; [exact Hseg |]. split; [| split; reflexivity].
  destruct Hseg as (seg & -> & _). clear.
  induction seg as [| c seg IH]; cbn [map_chars has_char]; [reflexivity |].
  rewrite IH, orb_false_r. unfold underscore_to_space.
  destruct (Ascii.eqb c "_") eqn:E; [reflexivity | exact E].
Qed.

(** C7. [timeHHmm] prints the local wall-clock time of the zone as two
    digits of the hour (00 to 23), a colon and two digits of the minute,
    without seconds; at 2024-06-15T09:05:00Z, London being one hour ahead
    of UTC, it prints "10:05". *)
Theorem timeHHmm_format (targetZone : string) (instant : Z) (r : Z -> Z) :
  zoneRules targetZone = Some r ->
  let tl := instant + r instant in
  timeHHmm targetZone instant =
    Normal (pad2 (HourFromTime tl) +:+ ":" +:+ pad2 (MinFromTime tl))
  /\ 0 <= HourFromTime tl <= 23
  /\ 0 <= MinFromTime tl <= 59
  /\ (targetZone = "Europe/London" ->
      instant = utc_of_fields 2024 6 15 9 5 0 ->
      r instant = 1 * msPerHour ->
      timeHHmm targetZone instant = Normal "10:05").
Proof.
  intros Hz tl. pose proof (time_within_day_range tl) as (Hh & Hm & _).
  split; [exact (timeHHmm_known _ _ _ Hz) |].
  split; [exact Hh |]. split; [exact Hm |].
  intros _ Hi Hr. rewrite (timeHHmm_known _ _ _ Hz). fold tl.
  subst tl. rewrite Hr, Hi. reflexivity.
Qed.

(** [offsetMinutes] is a number wherever the local time of the zone is a
    time value (or up to a day before the first one): only a local time
    past the last time value makes it NaN. *)
Lemma offsetMinutes_number z r t :
  zoneRules z = Some r -> - maxTime - msPerDay <= t + r t <= maxTime ->
  exists a, offsetMinutes z t = Normal (Num a).
Proof.
  intros Hz Hdom. rewrite (offsetMinutes_known z r t Hz). cbv zeta.
  destruct (Date_UTC_number _ Hdom) as [v ->]. eexists. reflexivity.
Qed.

(** A zone whose offset is a number differs from itself by "+0h". *)
Lemma diffLabel_same_offset (instant a : Z) :
  offsetMinutes (deviceZone tt) instant = Normal (Num a) ->
  diffLabel (deviceZone tt) instant = Normal "+0h".
Proof.
  intros Ha. unfold diffLabel. rewrite Ha. cbn [mbind completion_bind].
  cbn [nsub lift2]. rewrite Z.sub_diag. reflexivity.
Qed.

(** At every instant at which the local time of the device zone is not
    past the last time value (and not more than a day before the first),
    [diffLabel(deviceZone(), t)] is "+0h". *)
Theorem diffLabel_self (instant : Z) (r : Z -> Z) :
  zoneRules (deviceZone tt) = Some r ->
  - maxTime - msPerDay <= instant + r instant <= maxTime ->
  diffLabel (deviceZone tt) instant = Normal "+0h".
Proof.
  intros Hz Hdom. destruct (offsetMinutes_number _ _ _ Hz Hdom) as [a Ha].
  exact (diffLabel_same_offset instant a Ha).
Qed.

(** C9, amended. Where the local time of the zone lies between the year 100
    and the last time value, [offsetMinutes] is the offset that the rules
    database gives the zone at the instant, less the milliseconds of the
    local time, rounded to the minute, whatever that offset is. It is the
    offset itself when that is a whole number of minutes; it lies in
    [-720, 840] whenever the offset lies between -12 and +14 hours, and
    exactly when the offset less the milliseconds lies between -720 minutes
    and a half and 840 minutes and a half. The result depends on nothing
    but the instant and the offset of the zone at it: another zone, or
    another platform, with the same offset at the instant gives the same
    result. *)
Theorem offsetMinutes_range (zone : string) (instant : Z) (r : Z -> Z) :
  zoneRules zone = Some r ->
  year100 <= instant + r instant <= maxTime ->
  exists k,
    offsetMinutes zone instant = Normal (Num k)
    /\ k = nearest (r instant - (instant + r instant) mod 1000) 60000
    /\ (forall q, r instant = q * msPerMinute -> k = q)
    /\ (-720 * msPerMinute <= r instant <= 840 * msPerMinute -> -720 <= k <= 840)
    /\ (-720 <= k <= 840 <->
        -720 * msPerMinute - 30000
        <= r instant - (instant + r instant) mod 1000
        < 840 * msPerMinute + 30000)
    /\ (forall (other : Platform) (zone' : string) (r' : Z -> Z),
          @zoneRules other zone' = Some r' ->
          r' instant = r instant ->
          @offsetMinutes other zone' instant = Normal (Num k)).
Proof.
  intros Hz Hdom. destruct (offsetMinutes_exact zone r instant Hz Hdom) as [E _].
  eexists. split; [exact E |].
  split; [reflexivity |].
  unfold msPerMinute in *. unfold nearest.
  split; [intros q Hq; rewrite Hq; lia |].
  split; [lia |].
  split; [lia |].
  pose proof (offsetMinutes_known zone r instant Hz) as Hk. cbv zeta in Hk.
  rewrite Hk in E.
  intros other zone' r' Hz' Hr'.
  rewrite (@offsetMinutes_known other zone' r' instant Hz').
  cbv zeta. rewrite Hr'. exact E.
Qed.

(** C10. Every entry of [getAllZones] is consistent: its city is
    [cityFromZoneId] of its id; its country, when present, is the country
    name of a row of the metadata table whose name is that id, and it is
    absent only when the table has no such row. *)
Theorem getAllZones_entries (items : list TimeZoneItem) (item : TimeZoneItem) :
  getAllZones tt = Normal items ->
  In item items ->
  city item = cityFromZoneId (id item)
  /\ (forall c, country item = Some c ->
        exists z, In z getTimeZones /\ name z = id item /\ countryName z = c)
  /\ (country item = None -> forall z, In z getTimeZones -> name z <> id item)
  /\ (is_Some (country item) <-> exists z, In z getTimeZones /\ name z = id item).
Proof.
  rewrite getAllZones_known. intros [= <-] Hin.
  apply list_elem_of_In in Hin. rewrite sort_perm in Hin.
  apply list_elem_of_In, in_map_iff in Hin. destruct Hin as (i & <- & _).
  cbn [id city country].
  assert (HSome : forall c, countryName <$> enrich_of getTimeZones ∅ !! i = Some c ->
            exists z, In z getTimeZones /\ name z = i /\ countryName z = c).
  { intros c Hc. destruct (enrich_of getTimeZones ∅ !! i) as [z |] eqn:Hz; [| discriminate].
    injection Hc as <-. apply enrich_lookup_Some in Hz as [[Hin Hn] | Hemp].
    - exists z. rewrite <- list_elem_of_In. auto.
    - rewrite lookup_empty in Hemp. discriminate. }
  assert (HNone : countryName <$> enrich_of getTimeZones ∅ !! i = None ->
            forall z, In z getTimeZones -> name z <> i).
  { intros Hc z Hin. destruct (enrich_of getTimeZones ∅ !! i) as [z' |] eqn:Hz; [discriminate |].
    apply enrich_lookup_None in Hz as [_ Hall]. apply Hall, list_elem_of_In, Hin. }
  split; [reflexivity |]. split; [exact HSome |]. split; [exact HNone |].
  split.
  - intros [c Hc]. destruct (HSome c Hc) as (z & Hin & Hn & _). eauto.
  - intros (z & Hin & Hn).
    destruct (countryName <$> enrich_of getTimeZones ∅ !! i) as [c |] eqn:Hc; [eauto |].
    exfalso. exact (HNone eq_refl z Hin Hn).
Qed.

End Properties.

(* ===================================================================== *)
(** * The functions on the sample platform *)
(* ===================================================================== *)

Section Scenarios.
Import Sample.

Example offsetMinutes_newYork :
  @offsetMinutes newYork "America/New_York" january = Normal (Num (-300)).
Proof. vm_compute. reflexivity. Qed.

Example offsetMinutes_tokyo :
  @offsetMinutes newYork "Asia/Tokyo" january = Normal (Num 540).
Proof. vm_compute. reflexivity. Qed.

Example diffLabel_tokyo : @diffLabel newYork "Asia/Tokyo" january = Normal "+14h".
Proof. vm_compute. reflexivity. Qed.

Example diffLabel_kolkata_from_tokyo :
  @diffLabel tokyo "Asia/Kolkata" january = Normal (minus_glyph +:+ "3h 30m").
Proof. vm_compute. reflexivity. Qed.

(** 23:30 on 2024-06-15 in Los Angeles is 15:30 on the 16th in Tokyo. *)
Example dayRelative_tokyo_from_losAngeles :
  @dayRelative losAngeles "Asia/Tokyo" (at_utc 2024 6 16 6 30 0) = Normal Tomorrow.
Proof. vm_compute. reflexivity. Qed.

(** Across the new year the keys differ by 8870, and the sign decides. *)
Example dayRelative_new_year :
  dateKey (at_utc 2025 1 1 4 0 0 + hours 9) - dateKey (at_utc 2025 1 1 4 0 0 + hours (-8))
  = 8870
  /\ @dayRelative losAngeles "Asia/Tokyo" (at_utc 2025 1 1 4 0 0) = Normal Tomorrow.
Proof. split; vm_compute; reflexivity. Qed.

Example getAllZones_newYork :
  @getAllZones newYork tt =
  Normal [ {| id := "Europe/London"; city := "London"; country := Some "United Kingdom" |};
           {| id := "Asia/Tokyo"; city := "Tokyo"; country := Some "Japan" |};
           {| id := "UTC"; city := "UTC"; country := None |} ].
Proof. vm_compute. reflexivity. Qed.

End Scenarios.

(** C2. At 0050-06-15T00:00:00Z in the zone UTC the fields are those of the
    instant itself, so the computation of the specification gives the
    offset 0; the code hands the year 50 to [Date.UTC], which takes it for
    1950, and returns the minutes of 1900 years. *)
Theorem offsetMinutes_two_digit_year :
  valid_instant (utc_of_fields 50 6 15 0 0 0)
  /\ @offsetMinutes Sample.newYork "UTC" (utc_of_fields 50 6 15 0 0 0)
     = Normal (Num 999302400)
  /\ @offsetMinutes_spec Sample.newYork "UTC" (utc_of_fields 50 6 15 0 0 0)
     = Normal (Num 0).
Proof.
  split; [unfold valid_instant; split; apply Z.leb_le; vm_compute; reflexivity |].
  split; vm_compute; reflexivity.
Qed.

(** C8. [diffLabel(deviceZone(), t)] is to be "+0h" at every instant. At
    the last instant a Date can hold, on a device in Tokyo, the code does
    not return it: the local time is nine hours past the last time value,
    [Date.UTC] is NaN, so [offsetMinutes] is NaN and not the offset of the
    zone, and the label is the minus glyph and "NaNh". The same instant on
    a device in New York, and Tokyo nine hours earlier, give "+0h". *)
Lemma diffLabel_self_last_instant :
  valid_instant maxTime
  /\ @offsetMinutes Sample.tokyo (@deviceZone Sample.tokyo tt) maxTime = Normal NaN
  /\ @diffLabel Sample.tokyo (@deviceZone Sample.tokyo tt) maxTime
     = Normal (minus_glyph +:+ "NaNh")
  /\ @diffLabel Sample.tokyo (@deviceZone Sample.tokyo tt) maxTime <> Normal "+0h"
  /\ @diffLabel Sample.newYork (@deviceZone Sample.newYork tt) maxTime = Normal "+0h"
  /\ @diffLabel Sample.tokyo (@deviceZone Sample.tokyo tt) (maxTime - Sample.hours 9)
     = Normal "+0h".
Proof.
  split; [unfold valid_instant; split; apply Z.leb_le; vm_compute; reflexivity |].
  split; [vm_compute; reflexivity |].
  split; [vm_compute; reflexivity |].
  split; [vm_compute; intros E; discriminate E |].
  split; vm_compute; reflexivity.
Qed.

(** C9, as stated, fails for Juneau on 1850-01-01: local mean time there was
    15 hours and 2 minutes ahead of Greenwich. *)
Lemma offsetMinutes_juneau_1850 :
  valid_instant (utc_of_fields 1850 1 1 0 0 0)
  /\ @offsetMinutes Sample.newYork "America/Juneau" (utc_of_fields 1850 1 1 0 0 0)
     = Normal (Num 902)
  /\ ~ (forall (P : Platform) (z : string) (t : Z) (r : Z -> Z) (k : Z),
          @zoneRules P z = Some r -> valid_instant t ->
          @offsetMinutes P z t = Normal (Num k) -> -720 <= k <= 840).
Proof.
  assert (Hv : valid_instant (utc_of_fields 1850 1 1 0 0 0))
    by (unfold valid_instant; split; apply Z.leb_le; vm_compute; reflexivity).
  assert (He : @offsetMinutes Sample.newYork "America/Juneau" (utc_of_fields 1850 1 1 0 0 0)
               = Normal (Num 902)) by (vm_compute; reflexivity).
  split; [exact Hv |]. split; [exact He |].
  intros Hall.
  specialize (Hall Sample.newYork "America/Juneau" _ _ 902 eq_refl Hv He). lia.
Qed.

(* ===================================================================== *)
(** * The theorems at concrete inputs *)
(* ===================================================================== *)

Lemma dayRelative_classifies_witness :
  @zoneRules Sample.losAngeles "Asia/Tokyo" = Some (fun _ => Sample.hours 9)
  /\ is_Some (@zoneRules Sample.losAngeles (@deviceZone Sample.losAngeles tt))
  /\ @dayRelative Sample.losAngeles "Asia/Tokyo" (utc_of_fields 2024 6 16 6 30 0)
     = Normal Tomorrow.
Proof.
  split; [reflexivity |]. split; [eexists; reflexivity |].
  destruct (@dayRelative_classifies Sample.losAngeles "Asia/Tokyo"
              (utc_of_fields 2024 6 16 6 30 0) _ _ eq_refl eq_refl) as [E _].
  rewrite E. vm_compute. reflexivity.
Defined.

Lemma diffLabel_renders_witness :
  @offsetMinutes Sample.newYork "Asia/Kolkata" january = Normal (Num 330)
  /\ @offsetMinutes Sample.newYork (@deviceZone Sample.newYork tt) january
     = Normal (Num (-300))
  /\ @diffLabel Sample.newYork "Asia/Kolkata" january = Normal "+10h 30m".
Proof.
  assert (Ha : @offsetMinutes Sample.newYork "Asia/Kolkata" january = Normal (Num 330))
    by (vm_compute; reflexivity).
  assert (Hb : @offsetMinutes Sample.newYork (@deviceZone Sample.newYork tt) january
               = Normal (Num (-300))) by (vm_compute; reflexivity).
  split; [exact Ha |]. split; [exact Hb |].
  destruct (@diffLabel_renders Sample.newYork "Asia/Kolkata" january 330 (-300) Ha Hb)
    as [E _].
  rewrite E. vm_compute. reflexivity.
Defined.

Lemma unknown_zone_propagates_witness :
  @zoneRules Sample.newYork "Mars/Phobos" = None
  /\ @diffLabel Sample.newYork "Mars/Phobos" january
     = Throw (RangeError "Invalid time zone specified: Mars/Phobos")
  /\ @timeHHmm Sample.newYork "Mars/Phobos" january
     = Throw (RangeError "Invalid time zone specified: Mars/Phobos")
  /\ @dayRelative Sample.newYork "Mars/Phobos" january
     = Throw (RangeError "Invalid time zone specified: Mars/Phobos").
Proof.
  split; [reflexivity |].
  destruct (@unknown_zone_propagates Sample.newYork "Mars/Phobos" january eq_refl)
    as (_ & Hd & Ht & z & _ & Hr & Hz).
  split; [exact Hd |]. split; [exact Ht |].
  rewrite Hr, Hz; [reflexivity | eexists; reflexivity].
Defined.

Lemma getAllZones_resolution_sorted_witness :
  exists items,
    @getAllZones Sample.newYork tt = Normal items
    /\ (forall item, In item items -> city item = cityFromZoneId (id item))
    /\ StronglySorted
         (fun a b => Sample.codeUnitCompare (cityFromZoneId (id a))
                                            (cityFromZoneId (id b)) <= 0)
         items
    /\ Permutation (map id items) ["Asia/Tokyo"; "UTC"; "Europe/London"].
Proof.
  destruct (@getAllZones_resolution_sorted Sample.newYork
              codeUnitCompare_total codeUnitCompare_trans)
    as (items & Hitems & Hcity & Hsorted & _ & Hrun & _).
  exists items. split; [exact Hitems |]. split; [exact Hcity |].
  split; [exact Hsorted |].
  exact (Hrun _ _ eq_refl eq_refl).
Defined.

Lemma timeHHmm_format_witness :
  @zoneRules Sample.newYork "Europe/London"
  = Some (Sample.dst (Sample.at_utc 2024 3 31 1 0 0) (Sample.at_utc 2024 10 27 1 0 0)
                     0 (Sample.hours 1))
  /\ @timeHHmm Sample.newYork "Europe/London" (utc_of_fields 2024 6 15 9 5 0)
     = Normal "10:05".
Proof.
  split; [reflexivity |].
  destruct (@timeHHmm_format Sample.newYork "Europe/London"
              (utc_of_fields 2024 6 15 9 5 0) _ eq_refl) as (_ & _ & _ & E).
  apply E; reflexivity.
Defined.

Lemma diffLabel_self_witness :
  is_Some (@zoneRules Sample.newYork (@deviceZone Sample.newYork tt))
  /\ - maxTime - msPerDay <= january + Sample.hours (-5) <= maxTime
  /\ @diffLabel Sample.newYork (@deviceZone Sample.newYork tt) january = Normal "+0h".
Proof.
  assert (Hdom : - maxTime - msPerDay <= january + Sample.hours (-5) <= maxTime)
    by (split; apply Z.leb_le; vm_compute; reflexivity).
  split; [eexists; reflexivity |]. split; [exact Hdom |].
  exact (@diffLabel_self Sample.newYork january _ eq_refl Hdom).
Defined.

(** In Tokyo in 2024, and in Juneau in 1850. *)
Lemma offsetMinutes_range_witness :
  (year100 <= january + Sample.hours 9 <= maxTime
   /\ @offsetMinutes Sample.newYork "Asia/Tokyo" january = Normal (Num 540))
  /\ (year100 <= utc_of_fields 1850 1 1 0 0 0 + 54139000 <= maxTime
      /\ @offsetMinutes Sample.newYork "America/Juneau" (utc_of_fields 1850 1 1 0 0 0)
         = Normal (Num (nearest 54139000 60000))
      /\ nearest 54139000 60000 = 902).
Proof.
  assert (Hdom : year100 <= january + Sample.hours 9 <= maxTime)
    by (split; apply Z.leb_le; vm_compute; reflexivity).
  assert (Hdom' : year100 <= utc_of_fields 1850 1 1 0 0 0 + 54139000 <= maxTime)
    by (split; apply Z.leb_le; vm_compute; reflexivity).
  split.
  - split; [exact Hdom |].
    destruct (@offsetMinutes_range Sample.newYork "Asia/Tokyo" january
                (fun _ => Sample.hours 9) eq_refl Hdom) as (k & E & _ & Hq & _).
    rewrite E. rewrite (Hq 540); reflexivity.
  - split; [exact Hdom' |]. split; [| reflexivity].
    destruct (@offsetMinutes_range Sample.newYork "America/Juneau"
                (utc_of_fields 1850 1 1 0 0 0) _ eq_refl Hdom') as (k & E & Ek & _).
    rewrite E, Ek. reflexivity.
Defined.

Lemma getAllZones_entries_witness :
  In {| id := "UTC"; city := "UTC"; country := None |}
     [ {| id := "Europe/London"; city := "London"; country := Some "United Kingdom" |};
       {| id := "Asia/Tokyo"; city := "Tokyo"; country := Some "Japan" |};
       {| id := "UTC"; city := "UTC"; country := None |} ]
  /\ forall z, In z Sample.zoneTable -> name z <> "UTC".
Proof.
  assert (Hin : In {| id := "UTC"; city := "UTC"; country := None |}
     [ {| id := "Europe/London"; city := "London"; country := Some "United Kingdom" |};
       {| id := "Asia/Tokyo"; city := "Tokyo"; country := Some "Japan" |};
       {| id := "UTC"; city := "UTC"; country := None |} ])
    by (right; right; left; reflexivity).
  split; [exact Hin |].
  destruct (@getAllZones_entries Sample.newYork _ _ getAllZones_newYork Hin)
    as (_ & _ & HNone & _).
  exact (HNone eq_refl).
Defined.

(* ===================================================================== *)
(** * Further properties: days *)
(* ===================================================================== *)

Section DayOrder.

Lemma year_of_era_mono a b : 0 <= a <= b -> b < 146097 ->
  (a - a / 1460 + a / 36524 - a / 146096) / 365
  <= (b - b / 1460 + b / 36524 - b / 146096) / 365.
Proof. intros Ha Hb. lia. Qed.

(** Later day numbers have later dates, in the order of year, month, day. *)
Lemma civil_from_days_lt z1 z2 y1 m1 d1 y2 m2 d2 :
  civil_from_days z1 = (y1, m1, d1) -> civil_from_days z2 = (y2, m2, d2) ->
  z1 < z2 ->
  y1 < y2 \/ (y1 = y2 /\ (m1 < m2 \/ (m1 = m2 /\ d1 < d2))).
Proof.
  unfold civil_from_days. cbv zeta.
  pose proof (year_of_era ((z1 + 719468) mod 146097)) as H1. cbv zeta in H1.
  pose proof (year_of_era ((z2 + 719468) mod 146097)) as H2. cbv zeta in H2.
  pose proof (Z.div_mod (z1 + 719468) 146097 ltac:(lia)) as Hz1.
  pose proof (Z.div_mod (z2 + 719468) 146097 ltac:(lia)) as Hz2.
  pose proof (year_of_era_mono ((z1 + 719468) mod 146097) ((z2 + 719468) mod 146097))
    as Hmono.
  set (doe1 := (z1 + 719468) mod 146097) in *.
  set (era1 := (z1 + 719468) / 146097) in *.
  set (doe2 := (z2 + 719468) mod 146097) in *.
  set (era2 := (z2 + 719468) / 146097) in *.
  assert (Hd1 : 0 <= doe1 < 146097) by (subst doe1; apply Z.mod_pos_bound; lia).
  assert (Hd2 : 0 <= doe2 < 146097) by (subst doe2; apply Z.mod_pos_bound; lia).
  specialize (H1 Hd1). specialize (H2 Hd2).
  set (yoe1 := (doe1 - doe1 / 1460 + doe1 / 36524 - doe1 / 146096) / 365) in *.
  set (yoe2 := (doe2 - doe2 / 1460 + doe2 / 36524 - doe2 / 146096) / 365) in *.
  set (doy1 := doe1 - (365 * yoe1 + yoe1 / 4 - yoe1 / 100)) in *.
  set (doy2 := doe2 - (365 * yoe2 + yoe2 / 4 - yoe2 / 100)) in *.
  set (mp1 := (5 * doy1 + 2) / 153) in *.
  set (mp2 := (5 * doy2 + 2) / 153) in *.
  intros E1 E2 Hlt.
  apply pair3_eq in E1. destruct E1 as (Ey1 & Em1 & Ed1).
  apply pair3_eq in E2. destruct E2 as (Ey2 & Em2 & Ed2).
  destruct H1 as [Hy1 Hdoy1]. destruct H2 as [Hy2 Hdoy2].
  assert (Hmp1 : 0 <= mp1 <= 11) by (subst mp1; lia).
  assert (Hmp2 : 0 <= mp2 <= 11) by (subst mp2; lia).
  assert (Hshift :
    yoe1 + era1 * 400 < yoe2 + era2 * 400
    \/ (yoe1 + era1 * 400 = yoe2 + era2 * 400
        /\ (mp1 < mp2 \/ (mp1 = mp2 /\ d1 < d2)))).
  { assert (Hera : era1 < era2 \/ (era1 = era2 /\ doe1 < doe2)) by lia.
    destruct Hera as [Hera | [Hera Hdoe]]; [left; lia |].
    assert (Hyoe : yoe1 <= yoe2) by (apply Hmono; lia).
    destruct (Z.eq_dec yoe1 yoe2) as [Eyoe | Nyoe]; [| left; lia].
    right. split; [lia |].
    assert (Hdoy : doy1 < doy2) by (subst doy1 doy2; rewrite Eyoe; lia).
    assert (Hmp : mp1 <= mp2) by (subst mp1 mp2; lia).
    destruct (Z.eq_dec mp1 mp2) as [Emp | Nmp]; [| left; lia].
    right. split; [exact Emp |]. subst d1 d2. rewrite Emp. lia. }
  clearbody mp1 mp2 doy1 doy2 yoe1 yoe2 doe1 doe2 era1 era2.
  subst y1 m1 y2 m2.
  destruct (Z.ltb_spec mp1 10); destruct (Z.ltb_spec mp2 10);
    repeat match goal with |- context [?a <=? 2] => destruct (Z.leb_spec a 2) end;
    lia.
Qed.

(** From the year 1 on, the day key grows with the day number. *)
Lemma dateKey_lt a b : 1 <= YearFromTime a -> Day a < Day b -> dateKey a < dateKey b.
Proof.
  intros Hy Hlt. unfold dateKey.
  pose proof (date_fields_range a) as [Hma Hda].
  pose proof (date_fields_range b) as [Hmb Hdb].
  unfold YearFromTime, MonthFromTime, DateFromTime in *.
  destruct (civil_from_days (Day a)) as [[y1 m1] d1] eqn:E1.
  destruct (civil_from_days (Day b)) as [[y2 m2] d2] eqn:E2.
  cbn [fst snd] in *.
  pose proof (civil_from_days_lt _ _ _ _ _ _ _ _ E1 E2 Hlt) as Hord.
  unfold displayYear.
  destruct (Z.leb_spec y1 0); destruct (Z.leb_spec y2 0); lia.
Qed.

Lemma dateKey_Day a b : Day a = Day b -> dateKey a = dateKey b.
Proof.
  intros E. unfold dateKey, YearFromTime, MonthFromTime, DateFromTime.
  now rewrite E.
Qed.

(** The classification of the keys is the comparison of the day numbers. *)
Lemma classify_day_order a b :
  1 <= YearFromTime a -> 1 <= YearFromTime b ->
  classify (dateKey a) (dateKey b) =
  if Day a =? Day b then Today
  else if Day b <? Day a then Tomorrow else Yesterday.
Proof.
  intros Ha Hb. unfold classify.
  destruct (Z.eqb_spec (Day a) (Day b)) as [E | NE].
  - rewrite (dateKey_Day a b E), Z.eqb_refl. reflexivity.
  - destruct (Z.ltb_spec (Day b) (Day a)) as [Hlt | Hge].
    + pose proof (dateKey_lt b a Hb Hlt) as Hk.
      destruct (Z.eqb_spec (dateKey a) (dateKey b)); [lia |].
      destruct (Z.eqb_spec (dateKey a - dateKey b) 1); [reflexivity |].
      destruct (Z.eqb_spec (dateKey a - dateKey b) (-1)); [lia |].
      destruct (Z.ltb_spec 0 (dateKey a - dateKey b)); [reflexivity | lia].
    + assert (Hlt : Day a < Day b) by lia.
      pose proof (dateKey_lt a b Ha Hlt) as Hk.
      destruct (Z.eqb_spec (dateKey a) (dateKey b)); [lia |].
      destruct (Z.eqb_spec (dateKey a - dateKey b) 1); [lia |].
      destruct (Z.eqb_spec (dateKey a - dateKey b) (-1)); [reflexivity |].
      destruct (Z.ltb_spec 0 (dateKey a - dateKey b)); [lia | reflexivity].
Qed.

End DayOrder.

Section MoreOnDays.
Context `{Platform}.

Lemma dayRelative_known targetZone instant rT rD :
  zoneRules targetZone = Some rT ->
  zoneRules (deviceZone tt) = Some rD ->
  dayRelative targetZone instant =
    Normal (classify (dateKey (instant + rT instant)) (dateKey (instant + rD instant))).
Proof.
  intros HT HD.
  unfold dayRelative. rewrite (dayKey_known _ _ _ HD), (dayKey_known _ _ _ HT).
  cbn [mbind completion_bind].
  rewrite dayKeyString_eqb, !toNum_dayKeyString. unfold classify.
  cbn [nsub lift2 neq ngt].
  destruct (_ =? _); [reflexivity |].
  destruct (_ =? 1); [reflexivity |].
  destruct (_ =? -1); reflexivity.
Qed.

(** X1. From the year 1 on, [dayRelative] compares the true local days: Today
    when the target zone and the device zone are on the same day number,
    Tomorrow when the target is on a later one, Yesterday on an earlier one.
    The keys of two days that straddle the end of a month or of a year
    differ by more than 1, but in the right direction. *)
Theorem dayRelative_day_order (targetZone : string) (instant : Z) (rT rD : Z -> Z) :
  zoneRules targetZone = Some rT ->
  zoneRules (deviceZone tt) = Some rD ->
  1 <= YearFromTime (instant + rT instant) ->
  1 <= YearFromTime (instant + rD instant) ->
  dayRelative targetZone instant =
    Normal (if Day (instant + rT instant) =? Day (instant + rD instant) then Today
            else if Day (instant + rD instant) <? Day (instant + rT instant)
                 then Tomorrow else Yesterday).
Proof.
  intros HT HD HyT HyD.
  rewrite (dayRelative_known _ _ _ _ HT HD).
  now rewrite classify_day_order.
Qed.

(** X2. The device zone is on its own day at every instant. *)
Theorem dayRelative_device_today (instant : Z) (rD : Z -> Z) :
  zoneRules (deviceZone tt) = Some rD ->
  dayRelative (deviceZone tt) instant = Normal Today.
Proof.
  intros HD. rewrite (dayRelative_known _ _ _ _ HD HD).
  unfold classify. now rewrite Z.eqb_refl.
Qed.

(** X3. The day label follows the offsets. For two zones whose offsets differ
    by at most a day, the local days differ by at most one, and where they
    differ the zone with the larger offset is the one ahead: a target zone
    ahead of the device is never Yesterday, one behind it never Tomorrow. *)
Theorem dayRelative_follows_offset (targetZone : string) (instant : Z) (rT rD : Z -> Z) :
  zoneRules targetZone = Some rT ->
  zoneRules (deviceZone tt) = Some rD ->
  1 <= YearFromTime (instant + rT instant) ->
  1 <= YearFromTime (instant + rD instant) ->
  Z.abs (rT instant - rD instant) <= msPerDay ->
  Z.abs (Day (instant + rT instant) - Day (instant + rD instant)) <= 1
  /\ dayRelative targetZone instant =
       Normal (if Day (instant + rT instant) =? Day (instant + rD instant) then Today
               else if rD instant <? rT instant then Tomorrow else Yesterday).
Proof.
  intros HT HD HyT HyD Hoff.
  rewrite (dayRelative_known _ _ _ _ HT HD), classify_day_order by assumption.
  unfold Day, msPerDay in *.
  split; [lia |].
  destruct (Z.eqb_spec ((instant + rT instant) / 86400000)
                       ((instant + rD instant) / 86400000)); [reflexivity |].
  destruct (Z.ltb_spec ((instant + rD instant) / 86400000)
                       ((instant + rT instant) / 86400000));
    destruct (Z.ltb_spec (rD instant) (rT instant)); try reflexivity; lia.
Qed.

End MoreOnDays.

(* ===================================================================== *)
(** * Further properties: offsets and wall-clock time *)
(* ===================================================================== *)

Section MoreOnOffsets.
Context `{Platform}.

(** A date of the years 1 to 99 lies 693960 days before the same date 1900
    years later. *)
Lemma days_from_civil_1900 y m d :
  1 <= y <= 99 -> 1 <= m <= 12 ->
  days_from_civil (1900 + y) m d = days_from_civil y m d + 693960.
Proof.
  intros Hy Hm. unfold days_from_civil. cbv zeta.
  destruct (Z.leb_spec m 2); destruct (Z.gtb_spec m 2); lia.
Qed.

(** X4. In the local years 1 to 99 [Date.UTC] takes the displayed year for a
    year of the twentieth century: [offsetMinutes] is the offset of the
    zone plus the minutes of 1900 years. *)
Theorem offsetMinutes_years_1_to_99 (zone : string) (instant : Z) (r : Z -> Z) :
  zoneRules zone = Some r ->
  1 <= YearFromTime (instant + r instant) <= 99 ->
  offsetMinutes zone instant =
    Normal (Num (nearest (r instant - (instant + r instant) mod 1000) 60000
                 + 999302400)).
Proof.
  intros Hz Hy. rewrite (offsetMinutes_known zone r instant Hz). cbv zeta.
  set (tl := instant + r instant) in *.
  pose proof (date_fields_range tl) as [Hm Hd].
  pose proof (time_within_day_range tl) as (Hh & Hmi & Hs).
  assert (Hdisp : displayYear (YearFromTime tl) = YearFromTime tl)
    by (unfold displayYear; destruct (Z.leb_spec (YearFromTime tl) 0); lia).
  rewrite Hdisp.
  assert (Hfull : MakeFullYear (YearFromTime tl) = 1900 + YearFromTime tl).
  { unfold MakeFullYear.
    destruct (Z.leb_spec 0 (YearFromTime tl)); destruct (Z.leb_spec (YearFromTime tl) 99);
      cbn [andb]; lia. }
  rewrite Date_UTC_resolved; rewrite ?Hfull; try assumption; try lia.
  - unfold utc_of_fields. rewrite days_from_civil_1900 by lia.
    pose proof (utc_of_fields_local tl) as Hloc. unfold utc_of_fields in Hloc.
    cbn [nsub lift2 Math_round_div]. unfold nearest. do 2 f_equal.
    unfold msPerDay in *. subst tl. lia.
  - apply utc_of_fields_upper; try assumption. lia.
Qed.

(** When the local time of a zone, cut to the second, is past the last time
    value, [offsetMinutes] is NaN. *)
Lemma offsetMinutes_NaN z r t :
  zoneRules z = Some r ->
  maxTime < (t + r t) - (t + r t) mod 1000 ->
  offsetMinutes z t = Normal NaN.
Proof.
  intros Hz Hpast. rewrite (offsetMinutes_known z r t Hz). cbv zeta.
  set (tl := t + r t) in *.
  pose proof (date_fields_range tl) as [Hm Hd].
  assert (H100 : year100 <= tl) by (unfold year100, maxTime in *; lia).
  rewrite displayYear_100 by (apply YearFromTime_100; exact H100).
  unfold Date_UTC. rewrite MakeFullYear_100 by (apply YearFromTime_100; exact H100).
  unfold MakeDay.
  replace ((MonthFromTime tl - 1) / 12) with 0 by lia.
  replace ((MonthFromTime tl - 1) mod 12 + 1) with (MonthFromTime tl) by lia.
  replace (YearFromTime tl + 0) with (YearFromTime tl) by lia.
  destruct (_ && _); [| reflexivity].
  unfold Day at 1. rewrite Z.div_mul by (unfold msPerDay; lia).
  replace (days_from_civil (YearFromTime tl) (MonthFromTime tl) 1 + DateFromTime tl - 1)
    with (Day tl)
    by (rewrite <- (days_from_civil_fields tl),
          (days_from_civil_day _ _ (DateFromTime tl)); lia).
  unfold MakeDate. rewrite time_value_fields. unfold TimeClip.
  take_branch false; [reflexivity |]. apply Z.leb_gt. lia.
Qed.

(** X5. When the local time of the device zone is past the last time value, the
    difference is NaN and [diffLabel] shows "NaN" for the hours, behind the
    minus glyph, for every known target zone. *)
Theorem diffLabel_NaN (targetZone : string) (instant : Z) (rT rD : Z -> Z) :
  zoneRules targetZone = Some rT ->
  zoneRules (deviceZone tt) = Some rD ->
  maxTime < (instant + rD instant) - (instant + rD instant) mod 1000 ->
  diffLabel targetZone instant = Normal (minus_glyph +:+ "NaNh").
Proof.
  intros HT HD Hpast. unfold diffLabel.
  rewrite (offsetMinutes_known _ _ _ HT). cbv zeta. cbn [mbind completion_bind].
  rewrite (offsetMinutes_NaN _ _ _ HD Hpast). cbn [mbind completion_bind].
  destruct (Math_round_div _ _); reflexivity.
Qed.

(** X6. The wall-clock time agrees with the offset: for a zone whose offset is
    a whole number of minutes, [timeHHmm] shows the minute of the UTC day
    of the instant moved by [offsetMinutes], modulo one day. *)
Theorem timeHHmm_matches_offset (zone : string) (instant : Z) (r : Z -> Z) (q : Z) :
  zoneRules zone = Some r ->
  year100 <= instant + r instant <= maxTime ->
  r instant = q * msPerMinute ->
  let minuteOfDay := (instant / msPerMinute + q) mod 1440 in
  offsetMinutes zone instant = Normal (Num q)
  /\ timeHHmm zone instant =
       Normal (pad2 (minuteOfDay / 60) +:+ ":" +:+ pad2 (minuteOfDay mod 60)).
Proof.
  intros Hz Hdom Hq M. split.
  - destruct (offsetMinutes_exact zone r instant Hz Hdom) as [E _]. rewrite E.
    do 2 f_equal. rewrite Hq. unfold msPerMinute. apply nearest_whole_minutes. lia.
  - rewrite (timeHHmm_known zone r instant Hz). rewrite Hq.
    assert (EH : HourFromTime (instant + q * msPerMinute) = M / 60)
      by (subst M; unfold HourFromTime, msPerHour, msPerMinute; lia).
    assert (EM : MinFromTime (instant + q * msPerMinute) = M mod 60)
      by (subst M; unfold MinFromTime, msPerMinute; lia).
    now rewrite EH, EM.
Qed.

End MoreOnOffsets.

(* ===================================================================== *)
(** * Further properties: city names and the catalogue *)
(* ===================================================================== *)

Section MoreOnCities.

Lemma split_nonempty c s : split c s <> [].
Proof.
  destruct s as [| x s]; cbn [split]; [discriminate |].
  destruct (Ascii.eqb x c); [discriminate |]. destruct (split c s); discriminate.
Qed.

(** Splitting at a separator splits both sides. *)
Lemma split_app c pre s :
  split c (pre +:+ String c s) = split c pre ++ split c s.
Proof.
  induction pre as [| x pre IH].
  - rewrite append_nil. cbn [split]. now rewrite Ascii.eqb_refl.
  - rewrite append_cons. cbn [split]. rewrite IH.
    destruct (Ascii.eqb x c); [reflexivity |].
    pose proof (split_nonempty c pre) as Hne.
    destruct (split c pre); [contradiction | reflexivity].
Qed.

Lemma last_app_nonempty {A} (l1 l2 : list A) : l2 <> [] -> last (l1 ++ l2) = last l2.
Proof.
  intros Hne. destruct l2 as [| x l2]; [contradiction |].
  now rewrite last_app_cons.
Qed.

Lemma has_char_map_chars c f s :
  (forall x, f x = c -> x = c) -> has_char c s = false ->
  has_char c (map_chars f s) = false.
Proof.
  intros Hf. induction s as [| x s IH]; cbn [map_chars has_char]; [reflexivity |].
  intros Hs. apply orb_false_iff in Hs as [Hx Hs]. rewrite (IH Hs), orb_false_r.
  destruct (Ascii.eqb_spec (f x) c) as [E | NE]; [| reflexivity].
  apply Hf in E. subst x. now rewrite Ascii.eqb_refl in Hx.
Qed.

Lemma replace_absent c r s : has_char c s = false -> replace_all c r s = s.
Proof.
  induction s as [| x s IH]; cbn [has_char replace_all]; [reflexivity |].
  intros Hs. apply orb_false_iff in Hs as [Hx Hs]. now rewrite Hx, (IH Hs).
Qed.

(** X7. A city name is its own city name. *)
Theorem cityFromZoneId_idempotent (zoneId : string) :
  cityFromZoneId (cityFromZoneId zoneId) = cityFromZoneId zoneId
  /\ has_char "/" (cityFromZoneId zoneId) = false.
Proof.
  assert (Hslash : has_char "/" (cityFromZoneId zoneId) = false).
  { unfold cityFromZoneId. rewrite replace_underscores.
    apply has_char_map_chars.
    - intros x. unfold underscore_to_space.
      destruct (Ascii.eqb_spec x "_") as [-> | _]; [discriminate | auto].
    - destruct (last_separator "/" zoneId) as [Hno | (pre & seg & -> & Hseg)].
      + now rewrite (split_no_separator _ _ Hno).
      + rewrite split_app, last_app_nonempty by apply split_nonempty.
        now rewrite (split_no_separator _ _ Hseg). }
  split; [| exact Hslash].
  assert (Hunder : has_char "_" (cityFromZoneId zoneId) = false).
  { unfold cityFromZoneId. rewrite replace_underscores.
    generalize (default zoneId (last (split "/" zoneId))). intros s.
    induction s as [| c s IH]; cbn [map_chars has_char]; [reflexivity |].
    rewrite IH, orb_false_r. unfold underscore_to_space.
    destruct (Ascii.eqb c "_") eqn:E; [reflexivity | exact E]. }
  set (city := cityFromZoneId zoneId) in *.
  unfold cityFromZoneId at 1.
  rewrite (split_no_separator _ _ Hslash). cbn [last default].
  now apply replace_absent.
Qed.

(** X8. Only what follows the last slash counts: a prefix and a slash in front
    of an identifier do not change its city; an identifier that ends in a
    slash has the empty city. *)
Theorem cityFromZoneId_prefix (pre zoneId : string) :
  cityFromZoneId (pre +:+ String "/" zoneId) = cityFromZoneId zoneId
  /\ cityFromZoneId (pre +:+ "/") = "".
Proof.
  assert (Hpre : forall s, cityFromZoneId (pre +:+ String "/" s) = cityFromZoneId s).
  { intros s. unfold cityFromZoneId.
    rewrite split_app, last_app_nonempty by apply split_nonempty.
    pose proof (split_nonempty "/" s) as Hne.
    destruct (split "/" s) as [| h t] eqn:E; [contradiction |].
    destruct (last (h :: t)) eqn:El; [reflexivity |].
    apply last_None in El. discriminate. }
  split; [apply Hpre |]. exact (Hpre "").
Qed.

End MoreOnCities.

Section MoreOnCatalogue.
Context `{Platform}.

Lemma enrich_of_app l1 l2 m0 : enrich_of (l1 ++ l2) m0 = enrich_of l2 (enrich_of l1 m0).
Proof. unfold enrich_of. apply foldl_app. Qed.

Lemma enrich_of_absent l m0 k :
  (forall z, In z l -> name z <> k) -> enrich_of l m0 !! k = m0 !! k.
Proof.
  revert m0. induction l as [| y l IH]; intros m0 Hall; cbn [enrich_of foldl];
    [reflexivity |].
  fold (enrich_of l (<[name y := y]> m0)).
  rewrite IH by (intros z Hz; apply Hall; now right).
  apply lookup_insert_ne. apply Hall. now left.
Qed.

(** X9. When several rows of the metadata table carry the name of an entry's
    id, the entry has the country of the last of them. *)
Theorem getAllZones_last_row (items : list TimeZoneItem) (item : TimeZoneItem)
    (before_ after : list TimeZone) (row : TimeZone) :
  getAllZones tt = Normal items ->
  In item items ->
  getTimeZones = before_ ++ row :: after ->
  name row = id item ->
  (forall z, In z after -> name z <> id item) ->
  country item = Some (countryName row).
Proof.
  rewrite getAllZones_known. intros [= <-] Hin Hrows Hname Hafter.
  apply list_elem_of_In in Hin. rewrite sort_perm in Hin.
  apply list_elem_of_In, in_map_iff in Hin. destruct Hin as (i & <- & _).
  cbn [id city country] in *.
  rewrite Hrows, enrich_of_app. cbn [enrich_of foldl].
  fold (enrich_of after (<[name row := row]> (enrich_of before_ ∅))).
  rewrite (enrich_of_absent _ _ _ Hafter), Hname, lookup_insert_eq. reflexivity.
Qed.

(** X10. A runtime enumeration that returns no identifier gives an empty
    catalogue: the bundled list stands in only when there is no function or
    when it throws. *)
Theorem getAllZones_empty_enumeration (f : string -> completion (list string)) :
  Intl_supportedValuesOf = Some f ->
  f "timeZone" = Normal [] ->
  getAllZones tt = Normal [].
Proof.
  intros Hf Hl. rewrite getAllZones_known. unfold resolvedIds. now rewrite Hf, Hl.
Qed.

End MoreOnCatalogue.

(* ===================================================================== *)
(** * Further properties: the clocks screen *)
(* ===================================================================== *)

Section MoreOnTheScreen.
Import ClocksScreen.
Context `{Platform} `{StringOps}.

Lemma Array_includes_In arr x : Array_includes arr x = true <-> In x arr.
Proof.
  unfold Array_includes. rewrite existsb_exists. split.
  - intros (y & Hy & E). apply String.eqb_eq in E. now subst y.
  - intros Hx. exists x. split; [exact Hx | apply String.eqb_refl].
Qed.

Lemma filter_other_absent (x : string) (l : list string) :
  ~ In x l -> List.filter (fun z => negb (String.eqb z x)) l = l.
Proof.
  induction l as [| y l IH]; cbn [List.filter]; intros Hx; [reflexivity |].
  destruct (String.eqb_spec y x) as [-> | _]; cbn [negb].
  - exfalso. apply Hx. now left.
  - rewrite IH; [reflexivity |]. intros Hin. apply Hx. now right.
Qed.

Lemma addZone_NoDup (zoneId : string) (st : State) :
  List.NoDup (zones st) -> List.NoDup (zones (addZone zoneId st)).
Proof.
  intros Hnd. unfold addZone. cbn [zones].
  destruct (Array_includes (zones st) zoneId) eqn:E; [exact Hnd |].
  apply List.NoDup_app; [exact Hnd | repeat constructor; intros [] |].
  intros a Ha [<- | []]. apply Array_includes_In in Ha. congruence.
Qed.

(** X11. Adding a zone keeps the list free of duplicates and keeps its order:
    the zone is in the list afterwards, at its old place if it was there
    and at the end if not; the modal is closed and the query emptied. *)
Theorem addZone_unique (zoneId : string) (st : State) :
  List.NoDup (zones st) ->
  List.NoDup (zones (addZone zoneId st))
  /\ In zoneId (zones (addZone zoneId st))
  /\ (In zoneId (zones st) -> zones (addZone zoneId st) = zones st)
  /\ (~ In zoneId (zones st) -> zones (addZone zoneId st) = zones st ++ [zoneId])
  /\ open (addZone zoneId st) = false
  /\ query (addZone zoneId st) = "".
Proof.
  intros Hnd. split; [exact (addZone_NoDup zoneId st Hnd) |].
  unfold addZone. cbn [zones open query].
  destruct (Array_includes (zones st) zoneId) eqn:E.
  - apply Array_includes_In in E. repeat split; auto. intros Hno. contradiction.
  - assert (Hno : ~ In zoneId (zones st))
      by (intros Hin; apply Array_includes_In in Hin; congruence).
    repeat split; auto.
    + apply in_or_app. right. now left.
    + intros Hin. contradiction.
Qed.

(** X12. Adding a zone a second time changes nothing. *)
Theorem addZone_twice (zoneId : string) (st : State) :
  addZone zoneId (addZone zoneId st) = addZone zoneId st.
Proof.
  unfold addZone. cbn [zones now]. f_equal.
  destruct (Array_includes (zones st) zoneId) eqn:E.
  - now rewrite E.
  - replace (Array_includes (zones st ++ [zoneId]) zoneId) with true; [reflexivity |].
    symmetry. apply Array_includes_In, in_or_app. right. now left.
Qed.

(** X13. Confirming the removal takes the zone out and leaves every other zone
    in the list; cancelling leaves the state as it is. *)
Theorem removeZone_removes (zoneId : string) (st : State) :
  ~ In zoneId (zones (removeZone zoneId Remove st))
  /\ (forall z, z <> zoneId ->
        (In z (zones (removeZone zoneId Remove st)) <-> In z (zones st)))
  /\ (List.NoDup (zones st) -> List.NoDup (zones (removeZone zoneId Remove st)))
  /\ (~ In zoneId (zones st) -> zones (removeZone zoneId Remove st) = zones st)
  /\ removeZone zoneId Cancel st = st.
Proof.
  cbn [removeZone zones]. repeat split.
  - intros Hin. apply filter_In in Hin as [_ Hne].
    now rewrite String.eqb_refl in Hne.
  - intros Hin. now apply filter_In in Hin.
  - intros Hin. apply filter_In. split; [exact Hin |].
    destruct (String.eqb_spec z zoneId); [contradiction | reflexivity].
  - apply List.NoDup_filter.
  - apply filter_other_absent.
Qed.

(** X14. Removing a zone that was just added, and was not there before, gives
    the list back. *)
Theorem removeZone_addZone (zoneId : string) (st : State) :
  ~ In zoneId (zones st) ->
  zones (removeZone zoneId Remove (addZone zoneId st)) = zones st.
Proof.
  intros Hno. cbn [removeZone addZone zones].
  replace (Array_includes (zones st) zoneId) with false
    by (symmetry; apply not_true_is_false; intros E; apply Array_includes_In in E;
        contradiction).
  rewrite List.filter_app. cbn [List.filter]. rewrite String.eqb_refl. cbn [negb].
  rewrite app_nil_r. now apply filter_other_absent.
Qed.

(** X15. Whatever the user does from the first launch on, no zone is twice in
    the list. *)
Theorem run_unique (clock : Z) (events : list Event) :
  List.NoDup (zones (run (initial clock) events)).
Proof.
  assert (Hinv : forall st, List.NoDup (zones st) ->
                            List.NoDup (zones (run st events))).
  { induction events as [| e events IH]; intros st Hst; [exact Hst |].
    cbn [run foldl]. fold (run (step st e) events). apply IH.
    destruct e as [z | z [|] | c | q | b]; cbn [step zones removeZone]; try exact Hst.
    - apply (addZone_NoDup z st Hst).
    - apply List.NoDup_filter, Hst. }
  apply Hinv. cbn [initial zones]. repeat constructor. intros [].
Qed.

End MoreOnTheScreen.

Section MoreOnSearch.
Import ClocksScreen.
Context `{Platform} `{StringOps}.

Lemma prefix_refl s : String.prefix s s = true.
Proof.
  induction s as [| c s IH]; cbn [String.prefix]; [reflexivity |].
  destruct (ascii_dec c c); [exact IH | contradiction].
Qed.

Lemma includes_refl s : includes s s = true.
Proof. destruct s; cbn [includes]; rewrite prefix_refl; reflexivity. Qed.

Lemma filter_StronglySorted {A} (R : A -> A -> Prop) (f : A -> bool) l :
  StronglySorted R l -> StronglySorted R (List.filter f l).
Proof.
  induction 1 as [| x l Hl IH Hx]; cbn [List.filter]; [constructor |].
  destruct (f x); [| exact IH].
  constructor; [exact IH |].
  apply List.Forall_forall. intros y Hy. apply filter_In in Hy as [Hy _].
  rewrite List.Forall_forall in Hx. now apply Hx.
Qed.

Lemma filtered_In all q z : In z (filtered all q) -> In z all.
Proof.
  unfold filtered. destruct (String.eqb _ ""); [auto |].
  intros Hin. now apply filter_In in Hin.
Qed.

Lemma filtered_StronglySorted (R : TimeZoneItem -> TimeZoneItem -> Prop) all q :
  StronglySorted R all -> StronglySorted R (filtered all q).
Proof.
  intros Hs. unfold filtered. destruct (String.eqb _ ""); [exact Hs |].
  now apply filter_StronglySorted.
Qed.

(** X16. Searching the catalogue never reorders it: for every query the zones
    listed are zones of the catalogue, still sorted ascending by city. *)
Theorem search_sorted (all : list TimeZoneItem) (text : string) :
  (forall a b, localeCompare a b <= 0 \/ localeCompare b a <= 0) ->
  (forall a b c, localeCompare a b <= 0 -> localeCompare b c <= 0 ->
                 localeCompare a c <= 0) ->
  getAllZones tt = Normal all ->
  StronglySorted (fun a b => localeCompare (city a) (city b) <= 0) (filtered all text)
  /\ (forall z, In z (filtered all text) -> In z all).
Proof.
  intros Htotal Htrans. rewrite getAllZones_known. intros [= <-].
  split; [| intros z; apply filtered_In].
  apply filtered_StronglySorted.
  apply (sort_sorted (fun a b => localeCompare (city a) (city b))).
  - intros a b. apply Htotal.
  - intros a b c. apply Htrans.
Qed.

(** X17. A zone is found by its own id, by its city and by its country, typed as
    they are listed (trimming leaves them as they are). *)
Theorem search_finds (all : list TimeZoneItem) (zone : TimeZoneItem) :
  In zone all ->
  (trim (id zone) = id zone -> In zone (filtered all (id zone)))
  /\ (trim (city zone) = city zone -> In zone (filtered all (city zone)))
  /\ (forall c, country zone = Some c -> trim c = c -> In zone (filtered all c)).
Proof.
  intros Hin.
  assert (Hfind : forall text,
            trim text = text ->
            text = id zone \/ text = city zone \/ Some text = country zone ->
            In zone (filtered all text)).
  { intros text Htrim Hwhich. unfold filtered. rewrite Htrim.
    destruct (String.eqb _ ""); [exact Hin |].
    apply filter_In. split; [exact Hin |].
    destruct Hwhich as [-> | [-> | E]].
    - now rewrite includes_refl.
    - now rewrite includes_refl, orb_true_r.
    - rewrite <- E. cbn [default]. now rewrite includes_refl, !orb_true_r. }
  repeat split.
  - intros Ht. apply Hfind; auto.
  - intros Ht. apply Hfind; auto.
  - intros c Hc Ht. apply Hfind; auto.
Qed.

(** X18. The row of the device zone shows its city, its wall-clock time, and
    "+0h" and Today. *)
Theorem renderItem_device (instant : Z) (r : Z -> Z) :
  zoneRules (deviceZone tt) = Some r ->
  - maxTime - msPerDay <= instant + r instant <= maxTime ->
  renderItem (deviceZone tt) instant =
    Normal {| cityText := cityFromZoneId (deviceZone tt);
              timeText := pad2 (HourFromTime (instant + r instant)) +:+ ":"
                          +:+ pad2 (MinFromTime (instant + r instant));
              detailText := "+0h • Today" |}.
Proof.
  intros Hz Hdom. unfold renderItem.
  destruct (offsetMinutes_number _ _ _ Hz Hdom) as [a Ha].
  rewrite (diffLabel_same_offset instant a Ha). cbn [mbind completion_bind].
  rewrite (dayRelative_known _ _ _ _ Hz Hz). unfold classify. rewrite Z.eqb_refl.
  cbn [mbind completion_bind].
  rewrite (timeHHmm_known _ _ _ Hz). reflexivity.
Qed.

(** X19. A saved zone that the rules database does not know makes [renderItem]
    throw: the row has no error state of its own. *)
Theorem renderItem_unknown (zoneId : string) (instant : Z) :
  zoneRules zoneId = None ->
  renderItem zoneId instant = Throw (unknownZone zoneId).
Proof.
  intros Hz. unfold renderItem, diffLabel.
  now rewrite (offsetMinutes_unknown _ _ Hz).
Qed.

End MoreOnSearch.

(* ===================================================================== *)
(** * The further properties at concrete inputs *)
(* ===================================================================== *)

Section MoreWitnesses.
Import ClocksScreen.

(** 2025-01-01T04:00:00Z: the evening of 31 December in Los Angeles, the
    afternoon of 1 January in Tokyo. *)
Lemma dayRelative_day_order_witness :
  @zoneRules Sample.losAngeles "Asia/Tokyo" = Some (fun _ => Sample.hours 9)
  /\ 1 <= YearFromTime (utc_of_fields 2025 1 1 4 0 0 + Sample.hours 9)
  /\ 1 <= YearFromTime (utc_of_fields 2025 1 1 4 0 0 + Sample.hours (-8))
  /\ @dayRelative Sample.losAngeles "Asia/Tokyo" (utc_of_fields 2025 1 1 4 0 0)
     = Normal Tomorrow.
Proof.
  assert (HyT : 1 <= YearFromTime (utc_of_fields 2025 1 1 4 0 0 + Sample.hours 9))
    by (apply Z.leb_le; vm_compute; reflexivity).
  assert (HyD : 1 <= YearFromTime (utc_of_fields 2025 1 1 4 0 0 + Sample.hours (-8)))
    by (apply Z.leb_le; vm_compute; reflexivity).
  split; [reflexivity |]. split; [exact HyT |]. split; [exact HyD |].
  rewrite (@dayRelative_day_order Sample.losAngeles "Asia/Tokyo"
             (utc_of_fields 2025 1 1 4 0 0) _ _ eq_refl eq_refl HyT HyD).
  vm_compute. reflexivity.
Defined.

Lemma dayRelative_device_today_witness :
  is_Some (@zoneRules Sample.tokyo (@deviceZone Sample.tokyo tt))
  /\ @dayRelative Sample.tokyo (@deviceZone Sample.tokyo tt) january = Normal Today.
Proof.
  split; [eexists; reflexivity |].
  exact (@dayRelative_device_today Sample.tokyo january _ eq_refl).
Defined.

Lemma dayRelative_follows_offset_witness :
  Z.abs (Sample.hours 9 - Sample.hours (-8)) <= msPerDay
  /\ @dayRelative Sample.losAngeles "Asia/Tokyo" (utc_of_fields 2025 1 1 4 0 0)
     = Normal Tomorrow.
Proof.
  assert (HyT : 1 <= YearFromTime (utc_of_fields 2025 1 1 4 0 0 + Sample.hours 9))
    by (apply Z.leb_le; vm_compute; reflexivity).
  assert (HyD : 1 <= YearFromTime (utc_of_fields 2025 1 1 4 0 0 + Sample.hours (-8)))
    by (apply Z.leb_le; vm_compute; reflexivity).
  assert (Hoff : Z.abs (Sample.hours 9 - Sample.hours (-8)) <= msPerDay)
    by (apply Z.leb_le; vm_compute; reflexivity).
  split; [exact Hoff |].
  destruct (@dayRelative_follows_offset Sample.losAngeles "Asia/Tokyo"
              (utc_of_fields 2025 1 1 4 0 0) _ _ eq_refl eq_refl HyT HyD Hoff) as [_ E].
  rewrite E. vm_compute. reflexivity.
Defined.

Lemma offsetMinutes_years_1_to_99_witness :
  1 <= YearFromTime (utc_of_fields 50 6 15 0 0 0 + 0) <= 99
  /\ @offsetMinutes Sample.newYork "UTC" (utc_of_fields 50 6 15 0 0 0)
     = Normal (Num 999302400).
Proof.
  assert (Hy : 1 <= YearFromTime (utc_of_fields 50 6 15 0 0 0 + 0) <= 99)
    by (split; apply Z.leb_le; vm_compute; reflexivity).
  split; [exact Hy |].
  rewrite (@offsetMinutes_years_1_to_99 Sample.newYork "UTC"
             (utc_of_fields 50 6 15 0 0 0) (fun _ => 0) eq_refl Hy).
  vm_compute. reflexivity.
Defined.

Lemma diffLabel_NaN_witness :
  maxTime < (maxTime + Sample.hours 9) - (maxTime + Sample.hours 9) mod 1000
  /\ @diffLabel Sample.tokyo "UTC" maxTime = Normal (minus_glyph +:+ "NaNh").
Proof.
  assert (Hpast : maxTime < (maxTime + Sample.hours 9) - (maxTime + Sample.hours 9) mod 1000)
    by (apply Z.ltb_lt; vm_compute; reflexivity).
  split; [exact Hpast |].
  exact (@diffLabel_NaN Sample.tokyo "UTC" maxTime (fun _ => 0) (fun _ => Sample.hours 9)
           eq_refl eq_refl Hpast).
Defined.

Lemma timeHHmm_matches_offset_witness :
  year100 <= january + Sample.hours 9 <= maxTime
  /\ Sample.hours 9 = 540 * msPerMinute
  /\ @offsetMinutes Sample.newYork "Asia/Tokyo" january = Normal (Num 540)
  /\ @timeHHmm Sample.newYork "Asia/Tokyo" january = Normal "21:00".
Proof.
  assert (Hdom : year100 <= january + Sample.hours 9 <= maxTime)
    by (split; apply Z.leb_le; vm_compute; reflexivity).
  assert (Hq : Sample.hours 9 = 540 * msPerMinute) by reflexivity.
  split; [exact Hdom |]. split; [exact Hq |].
  destruct (@timeHHmm_matches_offset Sample.newYork "Asia/Tokyo" january
              (fun _ => Sample.hours 9) 540 eq_refl Hdom Hq) as [Eo Et].
  split; [exact Eo |]. rewrite Et. vm_compute. reflexivity.
Defined.

(** The catalogue of the platform whose table names Tokyo twice. *)
Example getAllZones_duplicates :
  @getAllZones SampleDuplicates.platform tt =
  Normal [ {| id := "Europe/London"; city := "London"; country := Some "United Kingdom" |};
           {| id := "Asia/Tokyo"; city := "Tokyo"; country := Some "Japan" |} ].
Proof. vm_compute. reflexivity. Qed.

(** Two rows are named Asia/Tokyo, with the countries Nippon and Japan; the
    entry of Asia/Tokyo has the country of the second. *)
Lemma getAllZones_last_row_witness :
  SampleDuplicates.zoneTable
  = [ {| name := "Asia/Tokyo"; countryName := "Nippon" |};
      {| name := "Europe/London"; countryName := "United Kingdom" |} ]
    ++ {| name := "Asia/Tokyo"; countryName := "Japan" |}
       :: [ {| name := "America/New_York"; countryName := "United States" |} ]
  /\ (forall z, In z [ {| name := "America/New_York"; countryName := "United States" |} ] ->
                name z <> "Asia/Tokyo")
  /\ (exists items,
        @getAllZones SampleDuplicates.platform tt = Normal items
        /\ forall item, In item items -> id item = "Asia/Tokyo" ->
                        country item = Some "Japan").
Proof.
  assert (Hafter : forall z,
            In z [ {| name := "America/New_York"; countryName := "United States" |} ] ->
            name z <> "Asia/Tokyo")
    by (intros z [<- | []]; discriminate).
  split; [reflexivity |]. split; [exact Hafter |].
  eexists. split; [exact getAllZones_duplicates |].
  intros item Hin Hid.
  refine (@getAllZones_last_row SampleDuplicates.platform _ item
            [ {| name := "Asia/Tokyo"; countryName := "Nippon" |};
              {| name := "Europe/London"; countryName := "United Kingdom" |} ]
            [ {| name := "America/New_York"; countryName := "United States" |} ]
            {| name := "Asia/Tokyo"; countryName := "Japan" |}
            getAllZones_duplicates Hin eq_refl _ _).
  - symmetry. exact Hid.
  - rewrite Hid. exact Hafter.
Defined.

Lemma getAllZones_empty_enumeration_witness :
  @getAllZones (Sample.platform "UTC" (Some (fun _ => Normal []))) tt = Normal [].
Proof.
  exact (@getAllZones_empty_enumeration
           (Sample.platform "UTC" (Some (fun _ => Normal []))) _ eq_refl eq_refl).
Defined.

(** A list of two saved zones. *)
Lemma addZone_unique_witness :
  List.NoDup ["America/New_York"; "Asia/Tokyo"]
  /\ zones (addZone "Europe/London"
              {| now := january; zones := ["America/New_York"; "Asia/Tokyo"];
                 open := true; query := "lon" |})
     = ["America/New_York"; "Asia/Tokyo"; "Europe/London"].
Proof.
  assert (Hnd : List.NoDup ["America/New_York"; "Asia/Tokyo"]).
  { constructor; [intros [E | []]; discriminate E |].
    constructor; [intros [] | constructor]. }
  split; [exact Hnd |].
  destruct (addZone_unique "Europe/London"
              {| now := january; zones := ["America/New_York"; "Asia/Tokyo"];
                 open := true; query := "lon" |} Hnd) as (_ & _ & _ & Happ & _).
  apply Happ. intros [E | [E | []]]; discriminate E.
Defined.

Lemma removeZone_removes_witness :
  ~ In "Asia/Tokyo"
      (zones (removeZone "Asia/Tokyo" Remove
                {| now := january; zones := ["America/New_York"; "Asia/Tokyo"];
                   open := false; query := "" |})).
Proof.
  exact (proj1 (removeZone_removes "Asia/Tokyo"
                  {| now := january; zones := ["America/New_York"; "Asia/Tokyo"];
                     open := false; query := "" |})).
Defined.

Lemma removeZone_addZone_witness :
  ~ In "Europe/London" ["America/New_York"; "Asia/Tokyo"]
  /\ zones (removeZone "Europe/London" Remove
              (addZone "Europe/London"
                 {| now := january; zones := ["America/New_York"; "Asia/Tokyo"];
                    open := true; query := "lon" |}))
     = ["America/New_York"; "Asia/Tokyo"].
Proof.
  assert (Hno : ~ In "Europe/London" ["America/New_York"; "Asia/Tokyo"])
    by (intros [E | [E | []]]; discriminate E).
  split; [exact Hno |].
  exact (removeZone_addZone "Europe/London"
           {| now := january; zones := ["America/New_York"; "Asia/Tokyo"];
              open := true; query := "lon" |} Hno).
Defined.

Lemma search_sorted_witness :
  exists all,
    @getAllZones Sample.newYork tt = Normal all
    /\ StronglySorted (fun a b => Sample.codeUnitCompare (city a) (city b) <= 0)
         (@filtered SampleText.ops all " O ")
    /\ @filtered SampleText.ops all " O "
       = [ {| id := "Europe/London"; city := "London"; country := Some "United Kingdom" |};
           {| id := "Asia/Tokyo"; city := "Tokyo"; country := Some "Japan" |} ].
Proof.
  eexists. split; [exact getAllZones_newYork |].
  split; [| vm_compute; reflexivity].
  exact (proj1 (@search_sorted Sample.newYork SampleText.ops _ " O "
                  codeUnitCompare_total codeUnitCompare_trans getAllZones_newYork)).
Defined.

Lemma search_finds_witness :
  @trim SampleText.ops "Asia/Tokyo" = "Asia/Tokyo"
  /\ In {| id := "Asia/Tokyo"; city := "Tokyo"; country := Some "Japan" |}
        (@filtered SampleText.ops
           [ {| id := "Europe/London"; city := "London"; country := Some "United Kingdom" |};
             {| id := "Asia/Tokyo"; city := "Tokyo"; country := Some "Japan" |};
             {| id := "UTC"; city := "UTC"; country := None |} ]
           "Asia/Tokyo").
Proof.
  split; [reflexivity |].
  refine (proj1 (@search_finds SampleText.ops
            [ {| id := "Europe/London"; city := "London"; country := Some "United Kingdom" |};
              {| id := "Asia/Tokyo"; city := "Tokyo"; country := Some "Japan" |};
              {| id := "UTC"; city := "UTC"; country := None |} ]
            {| id := "Asia/Tokyo"; city := "Tokyo"; country := Some "Japan" |} _) eq_refl).
  right. left. reflexivity.
Defined.

Lemma renderItem_device_witness :
  is_Some (@zoneRules Sample.tokyo (@deviceZone Sample.tokyo tt))
  /\ - maxTime - msPerDay <= january + Sample.hours 9 <= maxTime
  /\ @renderItem Sample.tokyo (@deviceZone Sample.tokyo tt) january
     = Normal {| cityText := "Tokyo"; timeText := "21:00"; detailText := "+0h • Today" |}.
Proof.
  assert (Hdom : - maxTime - msPerDay <= january + Sample.hours 9 <= maxTime)
    by (split; apply Z.leb_le; vm_compute; reflexivity).
  split; [eexists; reflexivity |]. split; [exact Hdom |].
  rewrite (@renderItem_device Sample.tokyo january (fun _ => Sample.hours 9) eq_refl Hdom).
  vm_compute. reflexivity.
Defined.

Lemma renderItem_unknown_witness :
  @zoneRules Sample.newYork "Mars/Phobos" = None
  /\ @renderItem Sample.newYork "Mars/Phobos" january
     = Throw (RangeError "Invalid time zone specified: Mars/Phobos").
Proof.
  split; [reflexivity |].
  exact (@renderItem_unknown Sample.newYork "Mars/Phobos" january eq_refl).
Defined.

End MoreWitnesses.
